(** * torchx.components.base.roles: the torch.distributed.launch role builder

    A shallow embedding of [create_torch_dist_role]
    (src/torchx/components/base/roles.py) together with the small part of
    Python it relies on: keyword dictionaries with insertion order,
    [dict.setdefault], [isinstance(_, bool)], [str], [os.path.isabs],
    [os.path.join] and [str.startswith].

    The file has two models of the function.  The first is a pure function on
    values; it settles everything about the produced [Role].  The second runs
    the same statements over a store of mutable Python objects (lists and
    dictionaries reached through references), and is what the frame and
    totality properties are stated on.  A refinement lemma ties them
    together. *)

From Stdlib Require Import ZArith Ascii Numbers.DecimalString Lia.
From stdpp Require Import base option list strings.

(** ** Python values and dictionaries *)

Module Py.

(** The values a launch keyword can carry: [None], booleans, integers and
    strings. *)
Inductive value : Type :=
| VNone
| VBool (b : bool)
| VInt (n : Z)
| VStr (s : string).

(** [isinstance(val, bool)].  [bool] cannot be subclassed, so this is the
    test that the value's type is exactly [bool]; an [int] is not one. *)
Definition isinstance_bool (val : value) : bool :=
  match val with
  | VBool _ => true
  | _ => false
  end.

(** Truth value of an object, as [if val:] computes it. *)
Definition truthy (val : value) : bool :=
  match val with
  | VNone => false
  | VBool b => b
  | VInt n => negb (n =? 0)%Z
  | VStr s => negb (String.eqb s "")
  end.

(** [str(val)]. *)
Definition str (val : value) : string :=
  match val with
  | VNone => "None"
  | VBool true => "True"
  | VBool false => "False"
  | VInt n => NilZero.string_of_int (Z.to_int n)
  | VStr s => s
  end.

(** A [dict] with string keys: its items in insertion order.  A well-formed
    dictionary has no repeated key, see [wf]. *)
Abbreviation dict V := (list (string * V)).

Definition keys {V} (d : dict V) : list string := d.*1.

Definition wf {V} (d : dict V) : Prop := NoDup (keys d).

(** [key in d]. *)
Fixpoint contains {V} (key : string) (d : dict V) : bool :=
  match d with
  | [] => false
  | (k, _) :: d' => if String.eqb k key then true else contains key d'
  end.

(** [d.get(key)]. *)
Fixpoint get {V} (key : string) (d : dict V) : option V :=
  match d with
  | [] => None
  | (k, v) :: d' => if String.eqb k key then Some v else get key d'
  end.

(** The dictionary after [d.setdefault(key, default)]: an absent key is
    inserted, hence placed last; a present key keeps its value and its
    place. *)
Definition setdefault {V} (key : string) (default : V) (d : dict V) : dict V :=
  if contains key d then d else d ++ [(key, default)].

(** [x or []] on an optional list: [None] and the empty list are both
    falsy. *)
Definition or_list {A} (x : option (list A)) : list A :=
  match x with
  | Some (a :: l) => a :: l
  | _ => []
  end.

(** [x or {}] on an optional dictionary. *)
Definition or_dict {V} (x : option (dict V)) : dict V :=
  match x with
  | Some (kv :: d) => kv :: d
  | _ => []
  end.

(** [s.startswith(prefix)]. *)
Definition startswith (s prefix : string) : bool := String.prefix prefix s.

(** [s.endswith("/")]. *)
Fixpoint endswith_sep (s : string) : bool :=
  match s with
  | EmptyString => false
  | String c EmptyString => Ascii.eqb c "/"%char
  | String _ s' => endswith_sep s'
  end.

End Py.

(** ** [os.path] on a POSIX platform (posixpath) *)

Module os_path.

Definition sep : string := "/".

(** [os.path.isabs(s)]: the path starts with the separator. *)
Definition isabs (s : string) : bool := Py.startswith s sep.

(** [os.path.join(a, b)] with one component [b]: an absolute [b] replaces
    [a]; otherwise [b] is appended, with a separator unless [a] is empty or
    already ends with one. *)
Definition join (a b : string) : string :=
  if Py.startswith b sep then b
  else if (String.eqb a "" || Py.endswith_sep a)%bool then a +:+ b
  else a +:+ sep +:+ b.

End os_path.

(** ** The collaborators from torchx.specs.api *)

(** Modelled from the spec: [Container] (torchx.specs.api) is an opaque
    resource descriptor that the builder passes through unchanged; here it is
    the descriptor's image name. *)
Record Container : Type := mkContainer { image : string }.

(** Modelled from the spec: [RetryPolicy] (torchx.specs.api) is an
    enumeration with at least the [APPLICATION] variant. *)
Inductive RetryPolicy : Type :=
| REPLICA
| APPLICATION.

(** Modelled from the spec: [macros] (torchx.specs.api) exposes two
    placeholder tokens, the application id and the image root.  Their text
    is not fixed here: the builder is parametrised by them. *)
Record Macros : Type := mkMacros { app_id : string; img_root : string }.

(** Modelled from the spec: the run specification held by a [Role]: a
    program, its argument sequence and an environment mapping. *)
Record RunSpec : Type := mkRunSpec {
  program : string;
  arguments : list string;
  environment : Py.dict string
}.

(** Modelled from the spec: [Role] (torchx.specs.api) holds a name, a run
    command, the attached container, a replica count and a retry policy with
    its retry count.  A field is [None] until the builder call that sets it
    has been made. *)
Record Role : Type := mkRole {
  role_name : string;
  role_run : option RunSpec;
  role_container : option Container;
  role_replicas : option Z;
  role_retry : option (RetryPolicy * Z)
}.

Module RoleApi.

(** Modelled from the spec: [Role(name)], create-by-name. *)
Definition new (name : string) : Role :=
  mkRole name None None None None.

(** Modelled from the spec: [role.runs(program, *args, **env)] attaches the
    run command. *)
Definition runs (entrypoint : string) (args : list string)
    (env : Py.dict string) (r : Role) : Role :=
  mkRole (role_name r) (Some (mkRunSpec entrypoint args env))
         (role_container r) (role_replicas r) (role_retry r).

(** Modelled from the spec: [role.on(container)] attaches the container. *)
Definition on (c : Container) (r : Role) : Role :=
  mkRole (role_name r) (role_run r) (Some c) (role_replicas r) (role_retry r).

(** Modelled from the spec: [role.replicas(n)] sets the replica count. *)
Definition replicas (n : Z) (r : Role) : Role :=
  mkRole (role_name r) (role_run r) (role_container r) (Some n) (role_retry r).

(** Modelled from the spec: [role.with_retry_policy(policy, max_retries)]
    sets the retry policy and the retry count. *)
Definition with_retry_policy (policy : RetryPolicy) (max_retries : Z)
    (r : Role) : Role :=
  mkRole (role_name r) (role_run r) (role_container r) (role_replicas r)
         (Some (policy, max_retries)).

End RoleApi.

(** ** The builder, as a pure function *)

Section Builder.

Context (macros : Macros).

(** The body of the loop over [launch_kwargs.items()]: the tokens one item
    adds to [args]. *)
Definition flag_tokens (item : string * Py.value) : list string :=
  let '(arg, val) := item in
  if Py.isinstance_bool val then
    if Py.truthy val then ["--" +:+ arg] else []
  else ["--" +:+ arg; Py.str val].

(** [create_torch_dist_role].  A parameter with a default in the signature
    is an [option]: [None] stands for the omitted argument (and, for
    [script_args] and [script_envs], for an explicit [None]). *)
Definition create_torch_dist_role
    (name : string) (container : Container) (entrypoint : string)
    (script_args : option (list string))
    (script_envs : option (Py.dict string))
    (num_replicas : option Z) (max_retries : option Z)
    (retry_policy : option RetryPolicy)
    (launch_kwargs : Py.dict Py.value) : Role :=
  let num_replicas := default 1%Z num_replicas in
  let max_retries := default 0%Z max_retries in
  let retry_policy := default APPLICATION retry_policy in
  let script_args := Py.or_list script_args in
  let script_envs := Py.or_dict script_envs in
  let entrypoint_override := "python" in
  let args := ["-m"; "torch.distributed.launch"] in
  let launch_kwargs := Py.setdefault "rdzv_backend" (Py.VStr "etcd") launch_kwargs in
  let launch_kwargs := Py.setdefault "rdzv_id" (Py.VStr (app_id macros)) launch_kwargs in
  let launch_kwargs := Py.setdefault "role" (Py.VStr name) launch_kwargs in
  let args := foldl (fun args item => args ++ flag_tokens item) args launch_kwargs in
  let entrypoint :=
    if (negb (os_path.isabs entrypoint)
        && negb (Py.startswith entrypoint (img_root macros)))%bool
    then os_path.join (img_root macros) entrypoint
    else entrypoint in
  let args := args ++ entrypoint :: script_args in
  RoleApi.with_retry_policy retry_policy max_retries
    (RoleApi.replicas num_replicas
      (RoleApi.on container
        (RoleApi.runs entrypoint_override args script_envs
          (RoleApi.new name)))).

End Builder.

(** Placeholder tokens used in the worked examples. *)
Definition sample_macros : Macros := mkMacros "${app_id}" "${img_root}".

Definition sample_container : Container := mkContainer "example/image:latest".

(** ** The parts of the argument list

    The properties below speak of the merged keyword dictionary, the flag
    tokens and the entrypoint token.  Each is the value of one block of the function's
    body; [create_torch_dist_role_unfold] shows that the function is their
    composition. *)

Section Parts.

Context (macros : Macros).

(** The three defaults, in the order of the [setdefault] calls. *)
Definition default_kwargs (name : string) : Py.dict Py.value :=
  [("rdzv_backend", Py.VStr "etcd");
   ("rdzv_id", Py.VStr (app_id macros));
   ("role", Py.VStr name)].

(** [launch_kwargs] after the three [setdefault] calls. *)
Definition merged_kwargs (name : string) (launch_kwargs : Py.dict Py.value)
  : Py.dict Py.value :=
  Py.setdefault "role" (Py.VStr name)
    (Py.setdefault "rdzv_id" (Py.VStr (app_id macros))
      (Py.setdefault "rdzv_backend" (Py.VStr "etcd") launch_kwargs)).

(** The defaults whose key the caller did not supply. *)
Definition missing_defaults (name : string) (launch_kwargs : Py.dict Py.value)
  : Py.dict Py.value :=
  filter (fun item => Py.contains (fst item) launch_kwargs = false) (default_kwargs name).

(** The tokens the loop adds for a dictionary. *)
Definition flags_of (d : Py.dict Py.value) : list string :=
  flat_map flag_tokens d.

(** The flag tokens of a call. *)
Definition launch_flags (name : string) (launch_kwargs : Py.dict Py.value)
  : list string :=
  flags_of (merged_kwargs name launch_kwargs).

(** The entrypoint after the normalisation step. *)
Definition entrypoint_token (entrypoint : string) : string :=
  if (negb (os_path.isabs entrypoint)
      && negb (Py.startswith entrypoint (img_root macros)))%bool
  then os_path.join (img_root macros) entrypoint
  else entrypoint.

(** The whole argument list. *)
Definition launch_args (name entrypoint : string) (script_args : list string)
    (launch_kwargs : Py.dict Py.value) : list string :=
  ["-m"; "torch.distributed.launch"] ++ launch_flags name launch_kwargs
    ++ entrypoint_token entrypoint :: script_args.

End Parts.

(** The run specification of a built role; a role without one has the empty
    argument list. *)
Definition role_args (r : Role) : list string :=
  from_option arguments [] (role_run r).

Definition role_env (r : Role) : Py.dict string :=
  from_option environment [] (role_run r).

Definition role_program (r : Role) : option string :=
  program <$> role_run r.

(** The order of the default flags as the sentence of the specification
    lists them: [--rdzv_backend etcd], then [--role <name>], then [--rdzv_id]
    with some value. *)
Definition listed_default_flags (name rdzv_id_value : string) : list string :=
  ["--rdzv_backend"; "etcd"; "--role"; name; "--rdzv_id"; rdzv_id_value].

(** The order the code produces: that of the [setdefault] calls. *)
Definition default_flags (macros : Macros) (name : string) : list string :=
  ["--rdzv_backend"; "etcd"; "--rdzv_id"; app_id macros; "--role"; name].

(** ** The builder over a store of mutable objects

    Python lists and dictionaries are objects reached through references;
    [args += ...] and [setdefault] change an object in place.  The store is
    the list of allocated objects and a reference is an index into it. *)

Module Store.

(** Lists of strings, dictionaries of keyword values, dictionaries of
    strings, and single values ([None], booleans, integers, strings). *)
Inductive object : Type :=
| OList (items : list string)
| OKwargs (d : Py.dict Py.value)
| OEnv (d : Py.dict string)
| OValue (v : Py.value).

Abbreviation ref := nat.

Abbreviation store := (list object).

(** The Python exceptions of a run. *)
Inductive exn : Type :=
| TypeError.

(** How a run ends.  [Ok]: the call returns.  [Raise]: it raises.
    [Unspecified]: it calls the [Role] API with a value outside that API's
    contract (a replica count that is no integer, an environment value that
    is no string); what the API does then is not known here, the store is
    the one at the call.  [Stuck]: a reference names no object, or the list
    and the dictionary the function itself created are of another kind; no
    run of a Python program gets there. *)
Inductive outcome (A : Type) : Type :=
| Ok (a : A) (s : store)
| Raise (e : exn) (s : store)
| Unspecified (s : store)
| Stuck.

Arguments Ok {A} a s.
Arguments Raise {A} e s.
Arguments Unspecified {A} s.
Arguments Stuck {A}.

Definition final_store {A} (o : outcome A) : option store :=
  match o with
  | Ok _ s => Some s
  | Raise _ s => Some s
  | Unspecified s => Some s
  | Stuck => None
  end.

Definition M (A : Type) : Type := store -> outcome A.

Definition ret {A} (a : A) : M A := fun s => Ok a s.

Definition raise {A} (e : exn) : M A := fun s => Raise e s.

Definition unspecified {A} : M A := fun s => Unspecified s.

Definition stuck {A} : M A := fun _ => Stuck.

Definition bind {A B} (m : M A) (k : A -> M B) : M B :=
  fun s =>
    match m s with
    | Ok a s' => k a s'
    | Raise e s' => Raise e s'
    | Unspecified s' => Unspecified s'
    | Stuck => Stuck
    end.

Notation "'let!' x ':=' m 'in' k" := (bind m (fun x => k))
  (at level 10, x name, m at level 200, k at level 200).

Notation "'exec!' m 'in' k" := (bind m (fun _ => k))
  (at level 10, m at level 200, k at level 200).

(** An allocation returns a reference that was not in use. *)
Definition alloc (o : object) : M ref :=
  fun s => Ok (length s) (s ++ [o]).

Definition read (r : ref) : M object :=
  fun s =>
    match s !! r with
    | Some o => Ok o s
    | None => Stuck
    end.

Definition write (r : ref) (o : object) : M unit :=
  fun s =>
    if decide (r < length s) then Ok tt (<[r:=o]> s) else Stuck.

(** The content of the list the function created. *)
Definition get_list (r : ref) : M (list string) :=
  let! o := read r in
  match o with
  | OList l => ret l
  | _ => stuck
  end.

(** The content of the keyword dictionary of the call. *)
Definition get_kwargs (r : ref) : M (Py.dict Py.value) :=
  let! o := read r in
  match o with
  | OKwargs d => ret d
  | _ => stuck
  end.

(** [l += items] on a list object: the object is extended in place. *)
Definition list_iadd (r : ref) (items : list string) : M unit :=
  let! l := get_list r in
  write r (OList (l ++ items)).

(** [d.setdefault(key, default)] on a dictionary object. *)
Definition dict_setdefault (r : ref) (key : string) (default : Py.value) : M unit :=
  let! d := get_kwargs r in
  write r (OKwargs (Py.setdefault key default d)).

(** Truth value of an object: an empty list or dictionary is false. *)
Definition truthy (o : object) : bool :=
  match o with
  | OList [] => false
  | OKwargs [] => false
  | OEnv [] => false
  | OValue v => Py.truthy v
  | _ => true
  end.

(** The one-character strings of a string, as iterating over it gives. *)
Fixpoint characters (s : string) : list string :=
  match s with
  | EmptyString => []
  | String c s' => String c EmptyString :: characters s'
  end.

(** [*x]: the items an object gives when iterated over.  A dictionary gives
    its keys, a string its characters; [None], a boolean and an integer are
    not iterable. *)
Definition iterate (r : ref) : M (list string) :=
  let! o := read r in
  match o with
  | OList l => ret l
  | OKwargs d => ret (Py.keys d)
  | OEnv d => ret (Py.keys d)
  | OValue (Py.VStr s) => ret (characters s)
  | OValue _ => raise TypeError
  end.

(** A dictionary of strings seen as a dictionary of values. *)
Definition keywords_of_env (d : Py.dict string) : Py.dict Py.value :=
  map (fun item => (fst item, Py.VStr (snd item))) d.

(** A dictionary of values seen as a dictionary of strings, when every
    value is one. *)
Fixpoint env_of (d : Py.dict Py.value) : option (Py.dict string) :=
  match d with
  | [] => Some []
  | (key, Py.VStr v) :: d' =>
      match env_of d' with
      | Some e => Some ((key, v) :: e)
      | None => None
      end
  | _ => None
  end.

(** [**x]: the keywords of a call that unpacks an object.  Only a
    dictionary is a mapping. *)
Definition unpack (r : ref) : M (Py.dict Py.value) :=
  let! o := read r in
  match o with
  | OKwargs d => ret d
  | OEnv d => ret (keywords_of_env d)
  | OList _ => raise TypeError
  | OValue _ => raise TypeError
  end.

(** [x or []]: the object [x] itself when it is true, a new empty list
    otherwise. *)
Definition or_list (x : option ref) : M ref :=
  match x with
  | None => alloc (OList [])
  | Some r =>
      let! o := read r in
      if truthy o then ret r else alloc (OList [])
  end.

(** [x or {}]. *)
Definition or_dict (x : option ref) : M ref :=
  match x with
  | None => alloc (OEnv [])
  | Some r =>
      let! o := read r in
      if truthy o then ret r else alloc (OEnv [])
  end.

(** A [for] loop over a sequence of items. *)
Fixpoint for_each {A} (items : list A) (body : A -> M unit) : M unit :=
  match items with
  | [] => ret tt
  | item :: items' => exec! body item in for_each items' body
  end.

(** *** Binding the arguments of a call

    The call is
    [create_torch_dist_role(name, container, entrypoint, ..., **mapping)],
    where each of the five parameters with a default is passed or left
    out.  A key of [mapping] that names a parameter is an argument for that
    parameter: the call raises [TypeError] when the parameter is passed as
    well; otherwise the parameter is bound to the value of the key.  The
    other keys make up [launch_kwargs]. *)

Definition parameters : list string :=
  ["name"; "container"; "entrypoint"; "script_args"; "script_envs";
   "num_replicas"; "max_retries"; "retry_policy"].

Definition given {A} (parameter : string) (argument : option A) : list string :=
  match argument with
  | Some _ => [parameter]
  | None => []
  end.

(** The parameters the call passes itself. *)
Definition passed {A B C D E} (script_args : option A) (script_envs : option B)
    (num_replicas : option C) (max_retries : option D)
    (retry_policy : option E) : list string :=
  ["name"; "container"; "entrypoint"]
  ++ given "script_args" script_args ++ given "script_envs" script_envs
  ++ given "num_replicas" num_replicas ++ given "max_retries" max_retries
  ++ given "retry_policy" retry_policy.

(** Some key of the mapping names a parameter that is passed as well. *)
Definition multiple_values (passed : list string)
    (keywords : Py.dict Py.value) : bool :=
  existsb (fun parameter => Py.contains parameter keywords) passed.

(** The keys that name no parameter. *)
Definition launch_keywords (keywords : Py.dict Py.value) : Py.dict Py.value :=
  filter (fun item => fst item ∉ parameters) keywords.

(** What a parameter holds after binding: a value of its annotation, or
    the value of another type that a key of the mapping gave it. *)
Inductive bound (T : Type) : Type :=
| Typed (x : T)
| Foreign (v : Py.value).

Arguments Typed {T} x.
Arguments Foreign {T} v.

Definition bind_int (argument : option Z) (keyword : option Py.value)
    (default : Z) : bound Z :=
  match argument, keyword with
  | Some n, _ => Typed n
  | None, None => Typed default
  | None, Some (Py.VInt n) => Typed n
  | None, Some v => Foreign v
  end.

Definition bind_policy (argument : option RetryPolicy)
    (keyword : option Py.value) (default : RetryPolicy) : bound RetryPolicy :=
  match argument, keyword with
  | Some p, _ => Typed p
  | None, None => Typed default
  | None, Some v => Foreign v
  end.

(** A parameter that holds an object or [None].  A value that a key of the
    mapping gives it becomes an object of the store. *)
Definition bind_object (argument : option ref) (keyword : option Py.value)
  : M (option ref) :=
  match argument, keyword with
  | Some r, _ => ret (Some r)
  | None, None => ret None
  | None, Some Py.VNone => ret None
  | None, Some v => let! r := alloc (OValue v) in ret (Some r)
  end.

(** [create_torch_dist_role], statement by statement.  [script_args] and
    [script_envs] are references to the caller's objects, the three
    parameters after them are values, and [None] is a parameter left out;
    [mapping] is the caller's object that the call unpacks with [**]. *)
Definition create_torch_dist_role (macros : Macros)
    (name : string) (container : Container) (entrypoint : string)
    (script_args : option ref) (script_envs : option ref)
    (num_replicas : option Z) (max_retries : option Z)
    (retry_policy : option RetryPolicy)
    (mapping : ref) : M Role :=
  let! keywords := unpack mapping in
  if multiple_values
       (passed script_args script_envs num_replicas max_retries retry_policy)
       keywords
  then raise TypeError
  else
  let! launch_kwargs := alloc (OKwargs (launch_keywords keywords)) in
  let! script_args := bind_object script_args (Py.get "script_args" keywords) in
  let! script_envs := bind_object script_envs (Py.get "script_envs" keywords) in
  let num_replicas := bind_int num_replicas (Py.get "num_replicas" keywords) 1%Z in
  let max_retries := bind_int max_retries (Py.get "max_retries" keywords) 0%Z in
  let retry_policy :=
    bind_policy retry_policy (Py.get "retry_policy" keywords) APPLICATION in
  let! script_args := or_list script_args in
  let! script_envs := or_dict script_envs in
  let entrypoint_override := "python" in
  let! args := alloc (OList ["-m"; "torch.distributed.launch"]) in
  exec! dict_setdefault launch_kwargs "rdzv_backend" (Py.VStr "etcd") in
  exec! dict_setdefault launch_kwargs "rdzv_id" (Py.VStr (app_id macros)) in
  exec! dict_setdefault launch_kwargs "role" (Py.VStr name) in
  let! items := get_kwargs launch_kwargs in
  exec! for_each items (fun '(arg, val) =>
    if Py.isinstance_bool val then
      if Py.truthy val then list_iadd args ["--" +:+ arg] else ret tt
    else list_iadd args ["--" +:+ arg; Py.str val]) in
  let entrypoint :=
    if (negb (os_path.isabs entrypoint)
        && negb (Py.startswith entrypoint (img_root macros)))%bool
    then os_path.join (img_root macros) entrypoint
    else entrypoint in
  let! rest := iterate script_args in
  exec! list_iadd args (entrypoint :: rest) in
  let! argv := iterate args in
  let! environment := unpack script_envs in
  match env_of environment, num_replicas, max_retries, retry_policy with
  | Some env, Typed num_replicas, Typed max_retries, Typed retry_policy =>
      ret (RoleApi.with_retry_policy retry_policy max_retries
             (RoleApi.replicas num_replicas
               (RoleApi.on container
                 (RoleApi.runs entrypoint_override argv env
                   (RoleApi.new name)))))
  | _, _, _, _ => unspecified
  end.

(** The value an optional list argument denotes in a store. *)
Definition list_arg (s : store) (x : option ref) : option (option (list string)) :=
  match x with
  | None => Some None
  | Some r =>
      match s !! r with
      | Some (OList l) => Some (Some l)
      | _ => None
      end
  end.

(** The value an optional environment argument denotes in a store. *)
Definition env_arg (s : store) (x : option ref) : option (option (Py.dict string)) :=
  match x with
  | None => Some None
  | Some r =>
      match s !! r with
      | Some (OEnv d) => Some (Some d)
      | _ => None
      end
  end.

(** The keywords a mapping argument denotes in a store. *)
Definition kwargs_arg (s : store) (r : ref) : option (Py.dict Py.value) :=
  match s !! r with
  | Some (OKwargs d) => Some d
  | _ => None
  end.

(** Every key that names a parameter carries a value of the parameter's
    annotation: [None] for [script_args] and [script_envs] (a keyword value
    is no list and no dictionary), an integer for [num_replicas] and
    [max_retries]; no keyword value is a retry policy. *)
Definition annotated_item (item : string * Py.value) : bool :=
  let '(key, val) := item in
  if (String.eqb key "script_args" || String.eqb key "script_envs")%bool then
    match val with
    | Py.VNone => true
    | _ => false
    end
  else if (String.eqb key "num_replicas" || String.eqb key "max_retries")%bool then
    match val with
    | Py.VInt _ => true
    | _ => false
    end
  else negb (String.eqb key "retry_policy").

Definition annotated (keywords : Py.dict Py.value) : bool :=
  forallb annotated_item keywords.

(** The integer a parameter receives: the one passed, else the one a key
    of the mapping gives, else none (the default applies). *)
Definition keyword_int (argument : option Z) (parameter : string)
    (keywords : Py.dict Py.value) : option Z :=
  match argument with
  | Some n => Some n
  | None =>
      match Py.get parameter keywords with
      | Some (Py.VInt n) => Some n
      | _ => None
      end
  end.

End Store.

(** ** The caller's store as a prefix

    [extends s0 s]: the store [s] is the store [s0] followed by objects
    allocated since.  [framed s0 Q o]: the outcome [o] is a return that
    satisfies [Q], or a raise or a call outside the [Role] API's contract
    in a store that extends [s0]; it is not [Stuck]. *)

Definition extends (s0 s : Store.store) : Prop :=
  exists fresh, s = s0 ++ fresh.

Definition framed {A} (s0 : Store.store) (Q : A -> Store.store -> Prop)
    (o : Store.outcome A) : Prop :=
  match o with
  | Store.Ok a s => Q a s
  | Store.Raise _ s => extends s0 s
  | Store.Unspecified s => extends s0 s
  | Store.Stuck => False
  end.

(** The objects of a run in a store: the keyword dictionary and the list
    [args] were allocated by the call and are a dictionary and a list; the
    objects bound to [script_args] and [script_envs] exist. *)
Definition owned (s0 : Store.store) (kwargs args sa se : Store.ref)
    (s : Store.store) : Prop :=
  extends s0 s
  /\ length s0 <= kwargs /\ length s0 <= args /\ kwargs <> args
  /\ (exists d, s !! kwargs = Some (Store.OKwargs d))
  /\ (exists l, s !! args = Some (Store.OList l))
  /\ sa < length s /\ se < length s.


(** * Properties *)

(** ** The documented example, evaluated *)

Example trainer_example :
  role_run (create_torch_dist_role sample_macros "trainer" sample_container
              "my_train_script.py" (Some ["--a"; "foo"]) None (Some 4%Z) (Some 1%Z) None
              [("nproc_per_node", Py.VInt 8); ("nnodes", Py.VStr "2:4");
               ("max_restarts", Py.VInt 3)])
  = Some (mkRunSpec "python"
      ["-m"; "torch.distributed.launch"; "--nproc_per_node"; "8"; "--nnodes"; "2:4";
       "--max_restarts"; "3"; "--rdzv_backend"; "etcd"; "--rdzv_id"; "${app_id}";
       "--role"; "trainer"; "${img_root}/my_train_script.py"; "--a"; "foo"] []).
Proof. reflexivity. Qed.

(** ** Dictionaries *)

Lemma or_list_Some {A} (l : list A) : Py.or_list (Some l) = l.
Proof. by destruct l. Qed.

Lemma or_dict_Some {V} (d : Py.dict V) : Py.or_dict (Some d) = d.
Proof. by destruct d. Qed.

Lemma contains_app {V} key (d1 d2 : Py.dict V) :
  Py.contains key (d1 ++ d2) = (Py.contains key d1 || Py.contains key d2)%bool.
Proof.
  induction d1 as [|[k v] d1 IH]; simpl; [done|].
  by destruct (String.eqb k key).
Qed.

Lemma contains_true_elem {V} key (d : Py.dict V) :
  Py.contains key d = true <-> key ∈ Py.keys d.
Proof.
  unfold Py.keys. induction d as [|[k v] d IH]; simpl.
  - split; [done|]. by intros ?%elem_of_nil.
  - rewrite elem_of_cons. destruct (String.eqb_spec k key) as [->|Hne].
    + split; auto.
    + rewrite IH. split; [auto|]. intros [->|?]; [done|auto].
Qed.

Lemma contains_false_elem {V} key (d : Py.dict V) :
  Py.contains key d = false <-> key ∉ Py.keys d.
Proof.
  rewrite <- contains_true_elem. by destruct (Py.contains key d).
Qed.

Lemma get_app_Some {V} key (d1 d2 : Py.dict V) v :
  Py.get key d1 = Some v -> Py.get key (d1 ++ d2) = Some v.
Proof.
  induction d1 as [|[k w] d1 IH]; simpl; [done|].
  by destruct (String.eqb k key).
Qed.

Lemma get_Some_elem {V} key (d : Py.dict V) v :
  Py.get key d = Some v -> (key, v) ∈ d.
Proof.
  induction d as [|[k w] d IH]; simpl; [done|].
  destruct (String.eqb_spec k key) as [->|Hne].
  - intros [= ->]. left.
  - intros ?. right. auto.
Qed.

Lemma get_Some_contains {V} key (d : Py.dict V) v :
  Py.get key d = Some v -> Py.contains key d = true.
Proof.
  induction d as [|[k w] d IH]; simpl; [done|].
  by destruct (String.eqb k key).
Qed.

Lemma get_cons {V} key k (v : V) (d : Py.dict V) :
  Py.get key ((k, v) :: d) = if String.eqb k key then Some v else Py.get key d.
Proof. reflexivity. Qed.

Lemma get_None_contains {V} key (d : Py.dict V) :
  Py.get key d = None <-> Py.contains key d = false.
Proof.
  induction d as [|[k w] d IH]; simpl; [done|].
  by destruct (String.eqb k key).
Qed.

Lemma get_app_None {V} key (d1 d2 : Py.dict V) :
  Py.get key d1 = None -> Py.get key (d1 ++ d2) = Py.get key d2.
Proof.
  induction d1 as [|[k w] d1 IH]; simpl; [done|].
  by destruct (String.eqb k key).
Qed.

(** In a well-formed dictionary a key has one item. *)
Lemma wf_elem_get {V} key (d : Py.dict V) v :
  Py.wf d -> (key, v) ∈ d -> Py.get key d = Some v.
Proof.
  unfold Py.wf, Py.keys. induction d as [|[k w] d IH]; simpl.
  - by intros _ ?%elem_of_nil.
  - intros [Hk Hd]%NoDup_cons [Heq|Hin]%elem_of_cons.
    + injection Heq as -> ->. by rewrite String.eqb_refl.
    + destruct (String.eqb_spec k key) as [->|Hne]; [|auto].
      exfalso. apply Hk. apply list_elem_of_fmap. by exists (key, v).
Qed.

Lemma setdefault_present {V} key (v : V) d :
  Py.contains key d = true -> Py.setdefault key v d = d.
Proof. unfold Py.setdefault. by intros ->. Qed.

Lemma setdefault_absent {V} key (v : V) d :
  Py.contains key d = false -> Py.setdefault key v d = d ++ [(key, v)].
Proof. unfold Py.setdefault. by intros ->. Qed.

Lemma setdefault_wf {V} key (v : V) d :
  Py.wf d -> Py.wf (Py.setdefault key v d).
Proof.
  unfold Py.setdefault. destruct (Py.contains key d) eqn:Hc; [done|].
  unfold Py.wf, Py.keys. rewrite fmap_app. simpl. intros Hd.
  apply NoDup_app. split_and!; [done| |apply NoDup_singleton].
  intros k Hk ->%list_elem_of_singleton.
  by apply contains_false_elem in Hc.
Qed.

(** The merged dictionary is the caller's items followed by the defaults
    that were missing, in the order of the [setdefault] calls. *)
Lemma merged_kwargs_app macros name kw :
  merged_kwargs macros name kw = kw ++ missing_defaults macros name kw.
Proof.
  unfold merged_kwargs, missing_defaults, default_kwargs, Py.setdefault.
  cbn.
  destruct (Py.contains "rdzv_backend" kw) eqn:H1;
    destruct (Py.contains "rdzv_id" kw) eqn:H2;
    destruct (Py.contains "role" kw) eqn:H3;
    repeat (rewrite ?contains_app, ?H1, ?H2, ?H3; simpl);
    repeat case_decide; try done;
    by rewrite <- ?app_assoc, ?app_nil_r.
Qed.

Lemma merged_kwargs_wf macros name kw :
  Py.wf kw -> Py.wf (merged_kwargs macros name kw).
Proof. intros ?. unfold merged_kwargs. by do 3 apply setdefault_wf. Qed.

(** ** The loop *)

Lemma flags_loop (d : Py.dict Py.value) (args : list string) :
  foldl (fun args item => args ++ flag_tokens item) args d = args ++ flags_of d.
Proof.
  unfold flags_of. revert args.
  induction d as [|item d IH]; intros args; simpl.
  - by rewrite app_nil_r.
  - by rewrite IH, <- app_assoc.
Qed.

Lemma flags_of_app d1 d2 : flags_of (d1 ++ d2) = flags_of d1 ++ flags_of d2.
Proof. apply flat_map_app. Qed.

(** The function is the composition of its blocks. *)
Lemma create_torch_dist_role_unfold macros name container entrypoint
    script_args script_envs num_replicas max_retries retry_policy launch_kwargs :
  create_torch_dist_role macros name container entrypoint script_args script_envs
    num_replicas max_retries retry_policy launch_kwargs
  = mkRole name
      (Some (mkRunSpec "python"
               (launch_args macros name entrypoint (Py.or_list script_args) launch_kwargs)
               (Py.or_dict script_envs)))
      (Some container)
      (Some (default 1%Z num_replicas))
      (Some (default APPLICATION retry_policy, default 0%Z max_retries)).
Proof.
  unfold create_torch_dist_role, launch_args, launch_flags, merged_kwargs,
    entrypoint_token.
  rewrite flags_loop.
  unfold RoleApi.with_retry_policy, RoleApi.replicas, RoleApi.on, RoleApi.runs,
    RoleApi.new. simpl.
  reflexivity.
Qed.

(** ** The entrypoint *)

(** In the branch that rewrites the entrypoint, [os.path.join] cannot take
    its first case (the entrypoint is not absolute) and the image root is not
    empty (every string starts with the empty one). *)
Lemma entrypoint_token_eq macros entrypoint :
  entrypoint_token macros entrypoint
  = if (os_path.isabs entrypoint
        || Py.startswith entrypoint (img_root macros))%bool
    then entrypoint
    else img_root macros
           +:+ (if Py.endswith_sep (img_root macros) then "" else "/")
           +:+ entrypoint.
Proof.
  unfold entrypoint_token, os_path.join, os_path.isabs.
  destruct (Py.startswith entrypoint os_path.sep) eqn:Habs; [done|].
  destruct (Py.startswith entrypoint (img_root macros)) eqn:Hroot; [done|].
  simpl. destruct (img_root macros) as [|c root] eqn:Himg.
  - unfold Py.startswith in Hroot. destruct entrypoint; simpl in Hroot; discriminate.
  - change (String.eqb (String c root) "") with false. rewrite orb_false_l.
    by destruct (Py.endswith_sep (String c root)).
Qed.

Example entrypoint_relative :
  entrypoint_token (mkMacros "${app_id}" "/img") "train.py" = "/img/train.py".
Proof. reflexivity. Qed.

Example entrypoint_absolute macros :
  entrypoint_token macros "/abs/train.py" = "/abs/train.py".
Proof. reflexivity. Qed.

Example entrypoint_prefixed :
  entrypoint_token sample_macros "${img_root}/train.py" = "${img_root}/train.py".
Proof. reflexivity. Qed.

(** ** Items that add no token *)

Lemma flags_of_filter (P : string * Py.value -> Prop) `{!forall x, Decision (P x)}
    (d : Py.dict Py.value) :
  (forall item, item ∈ d -> ~ P item -> flag_tokens item = []) ->
  flags_of (filter P d) = flags_of d.
Proof.
  unfold flags_of. induction d as [|item d IH]; intros Hd; [done|].
  rewrite filter_cons. simpl. case_decide as HP; simpl.
  - f_equal. apply IH. intros ???. apply Hd; [by right|done].
  - rewrite (Hd item); [|left|done]. simpl.
    apply IH. intros ???. apply Hd; [by right|done].
Qed.

(** ** Properties of the argument list *)

(** C1: for every input the argument list is [-m], [torch.distributed.launch],
    then the flag tokens of the keyword dictionary merged with the three
    defaults, then the entrypoint token, then the script arguments verbatim
    and in order as the last tokens; an omitted [script_args] adds none. *)
Theorem C1_argument_shape macros name container entrypoint
    (script_args : list string) script_envs num_replicas max_retries
    retry_policy launch_kwargs :
  let r := create_torch_dist_role macros name container entrypoint
             (Some script_args) script_envs num_replicas max_retries retry_policy
             launch_kwargs in
  let flags := flags_of (launch_kwargs ++ missing_defaults macros name launch_kwargs) in
  let entry := entrypoint_token macros entrypoint in
  role_args r
    = ["-m"; "torch.distributed.launch"] ++ flags ++ [entry] ++ script_args
  /\ take 2 (role_args r) = ["-m"; "torch.distributed.launch"]
  /\ take (length flags) (drop 2 (role_args r)) = flags
  /\ role_args r !! (2 + length flags) = Some entry
  /\ drop (2 + length flags + 1) (role_args r) = script_args
  /\ role_args (create_torch_dist_role macros name container entrypoint
                  None script_envs num_replicas max_retries retry_policy
                  launch_kwargs)
     = ["-m"; "torch.distributed.launch"] ++ flags ++ [entry].
Proof.
  intros r flags entry. subst r.
  rewrite !create_torch_dist_role_unfold, or_list_Some.
  unfold role_args, launch_args, launch_flags.
  rewrite merged_kwargs_app. fold flags. fold entry. simpl.
  split_and!; try done.
  - by rewrite drop_0, take_app_length.
  - by rewrite lookup_app_r, Nat.sub_diag by lia.
  - rewrite drop_app_ge, Nat.add_sub' by lia. done.
Qed.

(** C2: the three defaults are added only for keys the caller did not
    supply, so a supplied value of any key (in particular of [rdzv_backend],
    [rdzv_id] or [role]) is the value the merged dictionary holds; the loop
    visits the caller's items in their order and then the missing defaults
    in the order [rdzv_backend], [rdzv_id], [role]. *)
Theorem C2_defaults_only_if_missing macros name container entrypoint script_args
    script_envs num_replicas max_retries retry_policy launch_kwargs key :
  let merged := merged_kwargs macros name launch_kwargs in
  let present k := Py.contains k launch_kwargs in
  merged
    = launch_kwargs
      ++ (if present "rdzv_backend" then [] else [("rdzv_backend", Py.VStr "etcd")])
      ++ (if present "rdzv_id" then [] else [("rdzv_id", Py.VStr (app_id macros))])
      ++ (if present "role" then [] else [("role", Py.VStr name)])
  /\ Py.get key merged
     = match Py.get key launch_kwargs with
       | Some val => Some val
       | None => Py.get key (default_kwargs macros name)
       end
  /\ role_args (create_torch_dist_role macros name container entrypoint
                  script_args script_envs num_replicas max_retries retry_policy
                  launch_kwargs)
     = ["-m"; "torch.distributed.launch"] ++ flat_map flag_tokens merged
       ++ entrypoint_token macros entrypoint :: Py.or_list script_args.
Proof.
  intros merged present. subst merged present. split_and!.
  - rewrite merged_kwargs_app. unfold missing_defaults, default_kwargs. cbn.
    destruct (Py.contains "rdzv_backend" launch_kwargs);
      destruct (Py.contains "rdzv_id" launch_kwargs);
      destruct (Py.contains "role" launch_kwargs);
      repeat case_decide; done.
  - rewrite merged_kwargs_app.
    destruct (Py.get key launch_kwargs) as [val|] eqn:Hget.
    + by apply get_app_Some.
    + rewrite get_app_None by done.
      apply get_None_contains in Hget.
      unfold missing_defaults, default_kwargs.
      rewrite !filter_cons, filter_nil. cbn [fst].
      destruct (String.eqb_spec "rdzv_backend" key) as [<-|H1];
        [|destruct (String.eqb_spec "rdzv_id" key) as [<-|H2];
          [|destruct (String.eqb_spec "role" key) as [<-|H3]]];
        repeat case_decide; try congruence;
        rewrite ?get_cons, ?String.eqb_refl; try done;
        repeat match goal with
        | H : ?a <> key |- context [String.eqb ?a key] =>
            rewrite (proj2 (String.eqb_neq a key) H)
        end; try done.
  - rewrite create_torch_dist_role_unfold. done.
Qed.

(** C3: an item of the iterated dictionary whose value is a boolean adds the
    single token [--key] when the value is true and nothing when it is
    false; an item with any other value, the integer 1 included, adds the
    two tokens [--key] and [str(value)].  So [foo=True] gives [--foo],
    [foo=False] gives nothing and [foo=3] gives [--foo 3]. *)
Theorem C3_flag_tokens macros name container entrypoint script_args script_envs
    num_replicas max_retries retry_policy launch_kwargs
    (before after : Py.dict Py.value) (arg : string) (val : Py.value) :
  merged_kwargs macros name launch_kwargs = before ++ (arg, val) :: after ->
  role_args (create_torch_dist_role macros name container entrypoint
               script_args script_envs num_replicas max_retries retry_policy
               launch_kwargs)
  = ["-m"; "torch.distributed.launch"] ++ flags_of before
    ++ match val with
       | Py.VBool true => ["--" +:+ arg]
       | Py.VBool false => []
       | _ => ["--" +:+ arg; Py.str val]
       end
    ++ flags_of after
    ++ entrypoint_token macros entrypoint :: Py.or_list script_args.
Proof.
  intros Hmerged. rewrite create_torch_dist_role_unfold.
  unfold role_args, launch_args, launch_flags. cbn [role_run from_option arguments].
  rewrite Hmerged, flags_of_app. unfold flags_of at 2.
  cbn [flat_map]. fold (flags_of after). rewrite <- !app_assoc.
  do 2 f_equal. by destruct val as [|[]| |].
Qed.

Lemma C3_flag_tokens_witness :
  merged_kwargs sample_macros "trainer" [("foo", Py.VInt 1); ("bar", Py.VBool true)]
  = [("foo", Py.VInt 1)] ++ ("bar", Py.VBool true)
      :: default_kwargs sample_macros "trainer"
  /\ role_args (create_torch_dist_role sample_macros "trainer" sample_container
                  "/opt/train.py" None None None None None
                  [("foo", Py.VInt 1); ("bar", Py.VBool true)])
     = ["-m"; "torch.distributed.launch"; "--foo"; "1"; "--bar";
        "--rdzv_backend"; "etcd"; "--rdzv_id"; "${app_id}"; "--role"; "trainer";
        "/opt/train.py"].
Proof.
  split; [reflexivity|].
  exact (C3_flag_tokens sample_macros "trainer" sample_container "/opt/train.py"
           None None None None None
           [("foo", Py.VInt 1); ("bar", Py.VBool true)]
           [("foo", Py.VInt 1)] (default_kwargs sample_macros "trainer")
           "bar" (Py.VBool true) eq_refl).
Defined.

Example flag_true : flag_tokens ("foo", Py.VBool true) = ["--foo"].
Proof. reflexivity. Qed.

Example flag_false : flag_tokens ("foo", Py.VBool false) = [].
Proof. reflexivity. Qed.

Example flag_int : flag_tokens ("foo", Py.VInt 3) = ["--foo"; "3"].
Proof. reflexivity. Qed.

Example flag_int_one : flag_tokens ("foo", Py.VInt 1) = ["--foo"; "1"].
Proof. reflexivity. Qed.

Example flag_negative : flag_tokens ("local_rank", Py.VInt (-1)) = ["--local_rank"; "-1"].
Proof. reflexivity. Qed.

(** C4: the entrypoint token of the argument list is the entrypoint itself
    when it is absolute or starts with the image-root token; otherwise it is
    [os.path.join] of the image root and the entrypoint, which is the image
    root, one separator unless the root already ends with one, and the
    entrypoint. *)
Theorem C4_entrypoint_normalization macros name container entrypoint script_args
    script_envs num_replicas max_retries retry_policy launch_kwargs :
  let args := role_args (create_torch_dist_role macros name container entrypoint
                           script_args script_envs num_replicas max_retries
                           retry_policy launch_kwargs) in
  let root := img_root macros in
  args !! (2 + length (launch_flags macros name launch_kwargs))
  = Some (if (os_path.isabs entrypoint || Py.startswith entrypoint root)%bool
          then entrypoint
          else os_path.join root entrypoint)
  /\ args !! (2 + length (launch_flags macros name launch_kwargs))
     = Some (if (os_path.isabs entrypoint || Py.startswith entrypoint root)%bool
             then entrypoint
             else root +:+ (if Py.endswith_sep root then "" else "/")
                    +:+ entrypoint).
Proof.
  intros args root. subst args root.
  rewrite create_torch_dist_role_unfold.
  unfold role_args, launch_args. cbn [role_run from_option arguments].
  change (?a :: ?b :: ?l ++ ?r) with ([a; b] ++ l ++ r).
  rewrite lookup_app_r by (simpl; lia).
  rewrite lookup_app_r by (simpl; lia).
  replace (_ - _ - _) with 0 by (simpl; lia). simpl.
  rewrite <- entrypoint_token_eq. split; [|done]. f_equal.
  unfold entrypoint_token.
  destruct (os_path.isabs entrypoint); [done|].
  by destruct (Py.startswith entrypoint (img_root macros)).
Qed.

(** C5: the documented call, with three launch keywords, four replicas and
    one retry, gives the role named [trainer] that runs [python] with the
    listed arguments, has four replicas and retries by [APPLICATION] once.
    The image-root token is assumed to be a placeholder: it does not end
    with a separator and the script name does not start with it. *)
Theorem C5_trainer_role macros (c : Container) :
  Py.startswith "my_train_script.py" (img_root macros) = false ->
  Py.endswith_sep (img_root macros) = false ->
  create_torch_dist_role macros "trainer" c "my_train_script.py"
    (Some ["--a"; "foo"]) None (Some 4%Z) (Some 1%Z) None
    [("nproc_per_node", Py.VInt 8); ("nnodes", Py.VStr "2:4");
     ("max_restarts", Py.VInt 3)]
  = mkRole "trainer"
      (Some (mkRunSpec "python"
               ["-m"; "torch.distributed.launch";
                "--nproc_per_node"; "8"; "--nnodes"; "2:4"; "--max_restarts"; "3";
                "--rdzv_backend"; "etcd"; "--rdzv_id"; app_id macros;
                "--role"; "trainer";
                img_root macros +:+ "/my_train_script.py"; "--a"; "foo"]
               []))
      (Some c) (Some 4%Z) (Some (APPLICATION, 1%Z)).
Proof.
  intros Hroot Hsep. rewrite create_torch_dist_role_unfold.
  unfold launch_args. rewrite entrypoint_token_eq, Hroot, Hsep.
  reflexivity.
Qed.

Lemma C5_trainer_role_witness :
  (Py.startswith "my_train_script.py" (img_root sample_macros) = false
   /\ Py.endswith_sep (img_root sample_macros) = false)
  /\ create_torch_dist_role sample_macros "trainer" sample_container
       "my_train_script.py" (Some ["--a"; "foo"]) None (Some 4%Z) (Some 1%Z) None
       [("nproc_per_node", Py.VInt 8); ("nnodes", Py.VStr "2:4");
        ("max_restarts", Py.VInt 3)]
     = mkRole "trainer"
         (Some (mkRunSpec "python"
                  ["-m"; "torch.distributed.launch";
                   "--nproc_per_node"; "8"; "--nnodes"; "2:4";
                   "--max_restarts"; "3";
                   "--rdzv_backend"; "etcd"; "--rdzv_id"; "${app_id}";
                   "--role"; "trainer";
                   "${img_root}/my_train_script.py"; "--a"; "foo"]
                  []))
         (Some sample_container) (Some 4%Z) (Some (APPLICATION, 1%Z)).
Proof.
  split; [split; reflexivity|].
  exact (C5_trainer_role sample_macros sample_container eq_refl eq_refl).
Defined.

(** C6, as stated, fails: with no launch keyword the flags are
    [--rdzv_backend etcd --rdzv_id <app id> --role trainer]; [--rdzv_id]
    comes before [--role], so the flags are not in the listed order whatever
    the value given to [--rdzv_id]. *)
Lemma C6_listed_order_counterexample :
  let args := role_args (create_torch_dist_role sample_macros "trainer"
                           sample_container "train.py" None None None None None []) in
  args = ["-m"; "torch.distributed.launch";
          "--rdzv_backend"; "etcd"; "--rdzv_id"; "${app_id}"; "--role"; "trainer";
          "${img_root}/train.py"]
  /\ ~ (exists v rest,
          args = ["-m"; "torch.distributed.launch"] ++ flags_of []
                 ++ listed_default_flags "trainer" v ++ rest).
Proof.
  split; [reflexivity|].
  intros (v & rest & Hargs). vm_compute in Hargs. discriminate Hargs.
Qed.

(** C6, amended: when the caller supplies none of [rdzv_backend], [rdzv_id]
    and [role], the flag tokens are those of the caller's keywords followed
    by [--rdzv_backend etcd], [--rdzv_id <app id token>], [--role <name>],
    in this order. *)
Theorem C6_default_flags_appended macros name container entrypoint script_args
    script_envs num_replicas max_retries retry_policy launch_kwargs :
  Py.contains "rdzv_backend" launch_kwargs = false ->
  Py.contains "rdzv_id" launch_kwargs = false ->
  Py.contains "role" launch_kwargs = false ->
  launch_flags macros name launch_kwargs
  = flags_of launch_kwargs ++ default_flags macros name
  /\ role_args (create_torch_dist_role macros name container entrypoint
                  script_args script_envs num_replicas max_retries retry_policy
                  launch_kwargs)
     = ["-m"; "torch.distributed.launch"] ++ flags_of launch_kwargs
       ++ default_flags macros name
       ++ entrypoint_token macros entrypoint :: Py.or_list script_args.
Proof.
  intros H1 H2 H3.
  assert (Hflags : launch_flags macros name launch_kwargs
                   = flags_of launch_kwargs ++ default_flags macros name).
  { unfold launch_flags. rewrite merged_kwargs_app, flags_of_app. f_equal.
    unfold missing_defaults, default_kwargs.
    rewrite !filter_cons, filter_nil. cbn [fst]. rewrite H1, H2, H3.
    by repeat case_decide. }
  split; [done|].
  rewrite create_torch_dist_role_unfold.
  unfold role_args, launch_args. cbn [role_run from_option arguments].
  by rewrite Hflags, <- app_assoc.
Qed.

Lemma C6_default_flags_appended_witness :
  (Py.contains "rdzv_backend" [("nnodes", Py.VStr "2:4")] = false
   /\ Py.contains "rdzv_id" [("nnodes", Py.VStr "2:4")] = false
   /\ Py.contains "role" [("nnodes", Py.VStr "2:4")] = false)
  /\ launch_flags sample_macros "trainer" [("nnodes", Py.VStr "2:4")]
     = flags_of [("nnodes", Py.VStr "2:4")] ++ default_flags sample_macros "trainer"
  /\ role_args (create_torch_dist_role sample_macros "trainer" sample_container
                  "train.py" None None None None None [("nnodes", Py.VStr "2:4")])
     = ["-m"; "torch.distributed.launch"] ++ flags_of [("nnodes", Py.VStr "2:4")]
       ++ default_flags sample_macros "trainer"
       ++ entrypoint_token sample_macros "train.py" :: Py.or_list None.
Proof.
  split; [split_and!; reflexivity|].
  exact (C6_default_flags_appended sample_macros "trainer" sample_container
           "train.py" None None None None None [("nnodes", Py.VStr "2:4")]
           eq_refl eq_refl eq_refl).
Defined.

(** C7: the returned role carries the given name, runs the program [python]
    with the argument list built above and with [script_envs] as its
    environment, is attached to the given container, and has the given
    replica count, retry policy and retry count.  Omitting [script_args] or
    [script_envs] gives the role that empty ones give, with an empty
    environment. *)
Theorem C7_role_assembly macros name container entrypoint
    (script_args : list string) (script_envs : Py.dict string)
    (num_replicas max_retries : Z) (retry_policy : RetryPolicy) launch_kwargs :
  let build sa se :=
    create_torch_dist_role macros name container entrypoint sa se
      (Some num_replicas) (Some max_retries) (Some retry_policy) launch_kwargs in
  let r := build (Some script_args) (Some script_envs) in
  role_name r = name
  /\ role_program r = Some "python"
  /\ role_args r
     = ["-m"; "torch.distributed.launch"]
       ++ flat_map flag_tokens (merged_kwargs macros name launch_kwargs)
       ++ entrypoint_token macros entrypoint :: script_args
  /\ role_env r = script_envs
  /\ role_container r = Some container
  /\ role_replicas r = Some num_replicas
  /\ role_retry r = Some (retry_policy, max_retries)
  /\ build None (Some script_envs) = build (Some []) (Some script_envs)
  /\ build (Some script_args) None = build (Some script_args) (Some [])
  /\ role_env (build None None) = [].
Proof.
  intros build r. subst build r. cbv beta.
  rewrite !create_torch_dist_role_unfold, !or_list_Some, !or_dict_Some.
  by split_and!.
Qed.

Example omitted_defaults macros name container entrypoint launch_kwargs :
  let r := create_torch_dist_role macros name container entrypoint
             None None None None None launch_kwargs in
  role_replicas r = Some 1%Z /\ role_retry r = Some (APPLICATION, 0%Z).
Proof. by rewrite create_torch_dist_role_unfold. Qed.

(** C10: if the caller passes one of the defaulted keys with the value
    [False], the merged dictionary keeps [False] for that key (the default
    is not applied), every item under that key holds [False], and the flag
    tokens are those of the merged dictionary without that key: the key adds
    no token to the argument list. *)
Theorem C10_false_suppresses_default macros name container entrypoint script_args
    script_envs num_replicas max_retries retry_policy launch_kwargs key :
  Py.wf launch_kwargs ->
  key ∈ ["rdzv_backend"; "rdzv_id"; "role"] ->
  Py.get key launch_kwargs = Some (Py.VBool false) ->
  let merged := merged_kwargs macros name launch_kwargs in
  let others := filter (fun item => fst item <> key) merged in
  Py.get key merged = Some (Py.VBool false)
  /\ Forall (fun item => fst item = key -> flag_tokens item = []) merged
  /\ others = filter (fun item => fst item <> key) launch_kwargs
              ++ filter (fun item => fst item <> key)
                   (missing_defaults macros name launch_kwargs)
  /\ (key ∉ Py.keys others)
  /\ role_args (create_torch_dist_role macros name container entrypoint
                  script_args script_envs num_replicas max_retries retry_policy
                  launch_kwargs)
     = ["-m"; "torch.distributed.launch"] ++ flags_of others
       ++ entrypoint_token macros entrypoint :: Py.or_list script_args.
Proof.
  intros Hwf Hkey Hget merged others.
  assert (Hm : Py.get key merged = Some (Py.VBool false)).
  { subst merged. rewrite merged_kwargs_app. by apply get_app_Some. }
  assert (Hall : forall item, item ∈ merged -> fst item = key -> flag_tokens item = []).
  { intros [k v] Hin Hk. simpl in Hk. subst k.
    apply wf_elem_get in Hin; [|by apply merged_kwargs_wf].
    fold merged in Hin. rewrite Hm in Hin. by injection Hin as <-. }
  split_and!.
  - done.
  - by apply Forall_forall.
  - subst others merged. by rewrite merged_kwargs_app, filter_app.
  - subst others. unfold Py.keys. intros Hin.
    apply list_elem_of_fmap in Hin as [[k v] [-> Hin]].
    by apply list_elem_of_filter in Hin as [Hne _].
  - rewrite create_torch_dist_role_unfold.
    unfold role_args, launch_args, launch_flags.
    cbn [role_run from_option arguments]. fold merged.
    subst others. rewrite flags_of_filter; [done|].
    intros item Hin Hne. apply Hall; [done|].
    by destruct (decide (fst item = key)).
Qed.

Lemma C10_false_suppresses_default_witness :
  (Py.wf [("nnodes", Py.VInt 2); ("role", Py.VBool false)]
   /\ "role" ∈ ["rdzv_backend"; "rdzv_id"; "role"]
   /\ Py.get "role" [("nnodes", Py.VInt 2); ("role", Py.VBool false)]
      = Some (Py.VBool false))
  /\ role_args (create_torch_dist_role sample_macros "trainer" sample_container
                  "/opt/train.py" None None None None None
                  [("nnodes", Py.VInt 2); ("role", Py.VBool false)])
     = ["-m"; "torch.distributed.launch"; "--nnodes"; "2";
        "--rdzv_backend"; "etcd"; "--rdzv_id"; "${app_id}"; "/opt/train.py"].
Proof.
  assert (Hwf : Py.wf [("nnodes", Py.VInt 2); ("role", Py.VBool false)]).
  { unfold Py.wf. simpl. apply (bool_decide_unpack _). reflexivity. }
  assert (Hkey : "role" ∈ ["rdzv_backend"; "rdzv_id"; "role"]).
  { apply (bool_decide_unpack _). reflexivity. }
  split; [by split_and!|].
  exact (proj2 (proj2 (proj2 (proj2
    (C10_false_suppresses_default sample_macros "trainer" sample_container
       "/opt/train.py" None None None None None
       [("nnodes", Py.VInt 2); ("role", Py.VBool false)] "role"
       Hwf Hkey eq_refl))))).
Defined.

Example role_false macros name container entrypoint :
  os_path.isabs entrypoint = true ->
  role_args (create_torch_dist_role macros name container entrypoint
               None None None None None [("role", Py.VBool false)])
  = ["-m"; "torch.distributed.launch"; "--rdzv_backend"; "etcd";
     "--rdzv_id"; app_id macros; entrypoint].
Proof.
  intros Habs. rewrite create_torch_dist_role_unfold.
  unfold role_args, launch_args. cbn [role_run from_option arguments].
  rewrite entrypoint_token_eq, Habs. reflexivity.
Qed.

(** ** The store model, evaluated *)

Example store_run :
  Store.create_torch_dist_role sample_macros "trainer" sample_container "train.py"
    (Some 0) None (Some 2%Z) None None 1
    [Store.OList ["--lr"; "0.1"]; Store.OKwargs [("nnodes", Py.VInt 2)]]
  = Store.Ok
      (create_torch_dist_role sample_macros "trainer" sample_container "train.py"
         (Some ["--lr"; "0.1"]) None (Some 2%Z) None None [("nnodes", Py.VInt 2)])
      [Store.OList ["--lr"; "0.1"]; Store.OKwargs [("nnodes", Py.VInt 2)];
       Store.OKwargs [("nnodes", Py.VInt 2); ("rdzv_backend", Py.VStr "etcd");
                      ("rdzv_id", Py.VStr "${app_id}"); ("role", Py.VStr "trainer")];
       Store.OEnv [];
       Store.OList ["-m"; "torch.distributed.launch"; "--nnodes"; "2";
                    "--rdzv_backend"; "etcd"; "--rdzv_id"; "${app_id}";
                    "--role"; "trainer"; "${img_root}/train.py"; "--lr"; "0.1"]].
Proof. reflexivity. Qed.

(** A key of the mapping that names a passed parameter: the call raises
    before the body runs. *)
Example store_multiple_values :
  Store.create_torch_dist_role sample_macros "trainer" sample_container "train.py"
    None None None None None 0 [Store.OKwargs [("name", Py.VStr "x")]]
  = Store.Raise Store.TypeError [Store.OKwargs [("name", Py.VStr "x")]].
Proof. reflexivity. Qed.

(** A key that names a parameter left out binds the parameter and gives no
    flag. *)
Example store_keyword_parameter :
  Store.create_torch_dist_role sample_macros "trainer" sample_container
    "/opt/train.py" None None None None None 0
    [Store.OKwargs [("num_replicas", Py.VInt 5); ("script_args", Py.VNone)]]
  = Store.Ok
      (create_torch_dist_role sample_macros "trainer" sample_container
         "/opt/train.py" None None (Some 5%Z) None None [])
      [Store.OKwargs [("num_replicas", Py.VInt 5); ("script_args", Py.VNone)];
       Store.OKwargs [("rdzv_backend", Py.VStr "etcd");
                      ("rdzv_id", Py.VStr "${app_id}"); ("role", Py.VStr "trainer")];
       Store.OList []; Store.OEnv [];
       Store.OList ["-m"; "torch.distributed.launch"; "--rdzv_backend"; "etcd";
                    "--rdzv_id"; "${app_id}"; "--role"; "trainer";
                    "/opt/train.py"]].
Proof. reflexivity. Qed.

(** [script_args] bound to a string by a key: the characters of the string
    become the script arguments. *)
Example store_keyword_string :
  role_args <$> (match Store.create_torch_dist_role sample_macros "trainer"
                         sample_container "/opt/train.py" None None None None None 0
                         [Store.OKwargs [("script_args", Py.VStr "ab")]] with
                 | Store.Ok role _ => Some role
                 | _ => None
                 end)
  = Some ["-m"; "torch.distributed.launch"; "--rdzv_backend"; "etcd";
          "--rdzv_id"; "${app_id}"; "--role"; "trainer"; "/opt/train.py";
          "a"; "b"].
Proof. reflexivity. Qed.

(** [script_args] bound to an integer by a key: the body raises when it
    unpacks it, after the flags were added to [args]. *)
Example store_keyword_not_iterable :
  Store.create_torch_dist_role sample_macros "trainer" sample_container
    "/opt/train.py" None None None None None 0
    [Store.OKwargs [("script_args", Py.VInt 5)]]
  = Store.Raise Store.TypeError
      [Store.OKwargs [("script_args", Py.VInt 5)];
       Store.OKwargs [("rdzv_backend", Py.VStr "etcd");
                      ("rdzv_id", Py.VStr "${app_id}"); ("role", Py.VStr "trainer")];
       Store.OValue (Py.VInt 5); Store.OEnv [];
       Store.OList ["-m"; "torch.distributed.launch"; "--rdzv_backend"; "etcd";
                    "--rdzv_id"; "${app_id}"; "--role"; "trainer"]].
Proof. reflexivity. Qed.

(** A replica count that is no integer reaches the [Role] API. *)
Example store_keyword_foreign :
  Store.create_torch_dist_role sample_macros "trainer" sample_container
    "/opt/train.py" None None None None None 0
    [Store.OKwargs [("num_replicas", Py.VStr "many")]]
  = Store.Unspecified
      [Store.OKwargs [("num_replicas", Py.VStr "many")];
       Store.OKwargs [("rdzv_backend", Py.VStr "etcd");
                      ("rdzv_id", Py.VStr "${app_id}"); ("role", Py.VStr "trainer")];
       Store.OList []; Store.OEnv [];
       Store.OList ["-m"; "torch.distributed.launch"; "--rdzv_backend"; "etcd";
                    "--rdzv_id"; "${app_id}"; "--role"; "trainer";
                    "/opt/train.py"]].
Proof. reflexivity. Qed.

(** ** The frame of a run *)

Lemma extends_refl s : extends s s.
Proof. exists []. by rewrite app_nil_r. Qed.

Lemma extends_app s0 s more : extends s0 s -> extends s0 (s ++ more).
Proof. intros [fresh ->]. exists (fresh ++ more). by rewrite app_assoc. Qed.

Lemma extends_length s0 s : extends s0 s -> length s0 <= length s.
Proof. intros [fresh ->]. rewrite length_app. lia. Qed.

Lemma extends_insert s0 s r o :
  extends s0 s -> length s0 <= r -> extends s0 (<[r:=o]> s).
Proof.
  intros [fresh ->] Hr. exists (<[r - length s0:=o]> fresh).
  replace r with (length s0 + (r - length s0)) at 1 by lia.
  apply insert_app_r.
Qed.

Lemma framed_bind {A B} s0 (m : Store.M A) (k : A -> Store.M B) s
    (Q' : A -> Store.store -> Prop) (Q : B -> Store.store -> Prop) :
  framed s0 Q' (m s) ->
  (forall a s', Q' a s' -> framed s0 Q (k a s')) ->
  framed s0 Q (Store.bind m k s).
Proof.
  unfold Store.bind. destruct (m s) as [a s'| | |]; simpl; auto.
Qed.

Lemma framed_read s0 s r :
  r < length s ->
  framed s0 (fun o s' => s' = s /\ s !! r = Some o) (Store.read r s).
Proof.
  intros Hr. unfold Store.read.
  destruct (s !! r) as [o|] eqn:Ho; simpl; [done|].
  apply lookup_ge_None in Ho. lia.
Qed.

Lemma framed_iterate s0 s r :
  extends s0 s -> r < length s ->
  framed s0 (fun _ s' => s' = s) (Store.iterate r s).
Proof.
  intros Hs Hr. unfold Store.iterate.
  eapply framed_bind; [by apply framed_read|].
  intros o ? [-> _]. by destruct o as [| | |[]].
Qed.

Lemma framed_unpack s0 s r :
  extends s0 s -> r < length s ->
  framed s0 (fun _ s' => s' = s) (Store.unpack r s).
Proof.
  intros Hs Hr. unfold Store.unpack.
  eapply framed_bind; [by apply framed_read|].
  intros o ? [-> _]. by destruct o.
Qed.

Lemma framed_or s0 s x (empty : Store.object) :
  extends s0 s -> (forall r, x = Some r -> r < length s) ->
  framed s0 (fun r s' => extends s0 s' /\ r < length s'
                         /\ length s <= length s'
                         /\ forall i o, s !! i = Some o -> s' !! i = Some o)
    (match x with
     | None => Store.alloc empty
     | Some r =>
         Store.bind (Store.read r)
           (fun o => if Store.truthy o then Store.ret r else Store.alloc empty)
     end s).
Proof.
  intros Hs Hx.
  assert (Halloc : framed s0
            (fun r s' => extends s0 s' /\ r < length s' /\ length s <= length s'
                         /\ forall i o, s !! i = Some o -> s' !! i = Some o)
            (Store.alloc empty s)).
  { simpl. rewrite length_app. simpl. split_and!; [by apply extends_app|lia..|].
    intros i o Hi. by apply lookup_app_l_Some. }
  destruct x as [r|]; [|done].
  eapply framed_bind; [apply framed_read; auto|].
  intros o ? [-> _]. destruct (Store.truthy o); [|done].
  simpl. split_and!; auto.
Qed.

Lemma framed_bind_object s0 s x keyword :
  extends s0 s -> (forall r, x = Some r -> r < length s) ->
  framed s0 (fun x' s' => extends s0 s' /\ (forall r, x' = Some r -> r < length s')
                          /\ length s <= length s'
                          /\ forall i o, s !! i = Some o -> s' !! i = Some o)
    (Store.bind_object x keyword s).
Proof.
  intros Hs Hx. unfold Store.bind_object.
  destruct x as [r|]; [simpl; split_and!; auto|].
  destruct keyword as [[]|]; simpl; rewrite ?length_app; simpl;
    (split_and!; [by (apply extends_app || done)|intros ? [= <-]; lia || done|lia|]);
    first [done | intros i o Hi; by apply lookup_app_l_Some].
Qed.

Lemma owned_length s0 kwargs args sa se s :
  owned s0 kwargs args sa se s -> kwargs < length s /\ args < length s.
Proof.
  intros (_ & _ & _ & _ & [d Hd] & [l Hl] & _).
  split; by eapply lookup_lt_Some.
Qed.

Lemma owned_insert_args s0 kwargs args sa se s l :
  owned s0 kwargs args sa se s ->
  owned s0 kwargs args sa se (<[args:=Store.OList l]> s).
Proof.
  intros Hown. destruct (owned_length _ _ _ _ _ _ Hown) as [Hk Ha].
  destruct Hown as (Hs & H1 & H2 & Hne & [d Hd] & _ & Hsa & Hse).
  unfold owned. rewrite length_insert. split_and!; auto.
  - by apply extends_insert.
  - exists d. by rewrite list_lookup_insert_ne.
  - exists l. by rewrite list_lookup_insert_eq.
Qed.

Lemma owned_insert_kwargs s0 kwargs args sa se s d :
  owned s0 kwargs args sa se s ->
  owned s0 kwargs args sa se (<[kwargs:=Store.OKwargs d]> s).
Proof.
  intros Hown. destruct (owned_length _ _ _ _ _ _ Hown) as [Hk Ha].
  destruct Hown as (Hs & H1 & H2 & Hne & _ & [l Hl] & Hsa & Hse).
  unfold owned. rewrite length_insert. split_and!; auto.
  - by apply extends_insert.
  - exists d. by rewrite list_lookup_insert_eq.
  - exists l. by rewrite list_lookup_insert_ne.
Qed.

Lemma framed_list_iadd s0 kwargs args sa se s items :
  owned s0 kwargs args sa se s ->
  framed s0 (fun _ s' => owned s0 kwargs args sa se s')
    (Store.list_iadd args items s).
Proof.
  intros Hown. destruct (owned_length _ _ _ _ _ _ Hown) as [Hk Ha].
  pose proof Hown as (_ & _ & _ & _ & _ & [l Hl] & _).
  unfold Store.list_iadd, Store.get_list, Store.bind, Store.read, Store.write.
  rewrite Hl. simpl. rewrite decide_True by done. simpl.
  by apply owned_insert_args.
Qed.

Lemma framed_dict_setdefault s0 kwargs args sa se s key v :
  owned s0 kwargs args sa se s ->
  framed s0 (fun _ s' => owned s0 kwargs args sa se s')
    (Store.dict_setdefault kwargs key v s).
Proof.
  intros Hown. destruct (owned_length _ _ _ _ _ _ Hown) as [Hk Ha].
  pose proof Hown as (_ & _ & _ & _ & [d Hd] & _).
  unfold Store.dict_setdefault, Store.get_kwargs, Store.bind, Store.read,
    Store.write.
  rewrite Hd. simpl. rewrite decide_True by done. simpl.
  by apply owned_insert_kwargs.
Qed.

Lemma framed_flag_loop s0 kwargs args sa se (items : Py.dict Py.value) s :
  owned s0 kwargs args sa se s ->
  framed s0 (fun _ s' => owned s0 kwargs args sa se s')
    (Store.for_each items (fun '(arg, val) =>
       if Py.isinstance_bool val then
         if Py.truthy val then Store.list_iadd args ["--" +:+ arg]
         else Store.ret tt
       else Store.list_iadd args ["--" +:+ arg; Py.str val]) s).
Proof.
  revert s. induction items as [|[arg val] items IH]; intros s Hown; [done|].
  cbn [Store.for_each].
  apply (framed_bind _ _ _ _ (fun _ s' => owned s0 kwargs args sa se s'));
    [|intros ? s' Hown'; by apply IH].
  destruct (Py.isinstance_bool val); [destruct (Py.truthy val)|];
    first [by apply framed_list_iadd | done].
Qed.

(** Whatever the keywords are, a run on existing objects ends in a store
    that extends the caller's, and is never stuck. *)
Lemma create_torch_dist_role_framed macros name container entrypoint
    script_args script_envs num_replicas max_retries retry_policy mapping
    (s : Store.store) :
  (forall r, script_args = Some r -> r < length s) ->
  (forall r, script_envs = Some r -> r < length s) ->
  mapping < length s ->
  framed s (fun _ s' => extends s s')
    (Store.create_torch_dist_role macros name container entrypoint script_args
       script_envs num_replicas max_retries retry_policy mapping s).
Proof.
  intros Hsa Hse Hmap. unfold Store.create_torch_dist_role.
  eapply framed_bind; [apply framed_unpack; [apply extends_refl|done]|].
  intros keywords ? ->. cbv beta.
  destruct (Store.multiple_values _ keywords); [apply extends_refl|].
  apply (framed_bind _ _ _ _
           (fun r s' => r = length s
                        /\ s' = s ++ [Store.OKwargs (Store.launch_keywords keywords)]));
    [done|].
  intros kwargs ? [-> ->].
  eapply framed_bind.
  { apply framed_bind_object; [apply extends_app, extends_refl|].
    intros r Hr%Hsa. rewrite length_app. lia. }
  intros sa1 s1 (Hs1 & Hsa1 & Hlen1 & Hkeep1).
  eapply framed_bind.
  { apply framed_bind_object; [done|].
    intros r Hr%Hse. rewrite length_app in Hlen1. simpl in Hlen1. lia. }
  intros se1 s2 (Hs2 & Hse1 & Hlen2 & Hkeep2).
  eapply framed_bind.
  { apply (framed_or s s2 sa1 (Store.OList [])); [done|].
    intros r Hr%Hsa1. lia. }
  intros sa2 s3 (Hs3 & Hsa2 & Hlen3 & Hkeep3).
  eapply framed_bind.
  { apply (framed_or s s3 se1 (Store.OEnv [])); [done|].
    intros r Hr%Hse1. lia. }
  intros se2 s4 (Hs4 & Hse2 & Hlen4 & Hkeep4).
  eapply framed_bind.
  { instantiate (1 := fun r s' => owned s (length s) r sa2 se2 s'). simpl.
    rewrite length_app in Hlen1. simpl in Hlen1.
    pose proof (extends_length _ _ Hs4) as Hlen0.
    unfold owned. rewrite length_app. simpl.
    split_and!; try lia.
    - by apply extends_app.
    - eexists. apply lookup_app_l_Some, Hkeep4, Hkeep3, Hkeep2, Hkeep1.
      by rewrite lookup_app_r, Nat.sub_diag by lia.
    - eexists. by rewrite lookup_app_r, Nat.sub_diag by lia. }
  intros args s5 Hown5. cbv beta in Hown5.
  eapply framed_bind; [exact (framed_dict_setdefault _ _ _ _ _ _ _ _ Hown5)|].
  intros ? s5a Hown5a. cbv beta in Hown5a.
  eapply framed_bind; [exact (framed_dict_setdefault _ _ _ _ _ _ _ _ Hown5a)|].
  intros ? s5b Hown5b. cbv beta in Hown5b.
  eapply framed_bind; [exact (framed_dict_setdefault _ _ _ _ _ _ _ _ Hown5b)|].
  intros ? s5c Hown. cbv beta in Hown.
  apply (framed_bind _ _ _ _ (fun _ s' => owned s (length s) args sa2 se2 s')).
  { pose proof Hown as (_ & _ & _ & _ & [d Hd] & _).
    unfold Store.get_kwargs, Store.bind, Store.read. by rewrite Hd. }
  intros items s6 Hown6.
  eapply framed_bind; [exact (framed_flag_loop _ _ _ _ _ _ _ Hown6)|].
  intros ? s7 Hown7. cbv beta in Hown7.
  eapply framed_bind.
  { apply framed_iterate; [apply Hown7|]. apply Hown7. }
  intros rest ? ->.
  eapply framed_bind; [exact (framed_list_iadd _ _ _ _ _ _ _ Hown7)|].
  intros ? s8 Hown8. cbv beta in Hown8.
  eapply framed_bind.
  { apply framed_iterate; [apply Hown8|].
    by destruct (owned_length _ _ _ _ _ _ Hown8). }
  intros argv ? ->.
  eapply framed_bind.
  { apply framed_unpack; [apply Hown8|]. apply Hown8. }
  intros environment ? ->.
  destruct Hown8 as [Hs8 _].
  destruct (Store.env_of environment); [|done].
  destruct (Store.bind_int num_replicas _ _); [|done].
  destruct (Store.bind_int max_retries _ _); [|done].
  by destruct (Store.bind_policy retry_policy _ _).
Qed.

(** ** Running the statements

    The store of a run has the form [s ++ fresh]: the caller's store [s] and
    the objects allocated since.  The lemmas below give the result of each
    operation on such a store. *)

Lemma bind_Ok {A B} (m : Store.M A) (k : A -> Store.M B) s a s' :
  m s = Store.Ok a s' -> Store.bind m k s = k a s'.
Proof. unfold Store.bind. by intros ->. Qed.

Lemma alloc_framed (s fresh : Store.store) o :
  Store.alloc o (s ++ fresh)
  = Store.Ok (length s + length fresh) (s ++ (fresh ++ [o])).
Proof. unfold Store.alloc. by rewrite length_app, app_assoc. Qed.

Lemma read_old (s fresh : Store.store) r o :
  s !! r = Some o -> Store.read r (s ++ fresh) = Store.Ok o (s ++ fresh).
Proof.
  intros Hr. unfold Store.read. by rewrite (lookup_app_l_Some _ _ _ _ Hr).
Qed.

Lemma read_fresh (s fresh : Store.store) k o :
  fresh !! k = Some o ->
  Store.read (length s + k) (s ++ fresh) = Store.Ok o (s ++ fresh).
Proof.
  intros Hk. unfold Store.read.
  by rewrite lookup_app_r, Nat.add_sub', Hk by lia.
Qed.

Lemma write_fresh (s fresh : Store.store) k o :
  k < length fresh ->
  Store.write (length s + k) o (s ++ fresh)
  = Store.Ok tt (s ++ <[k:=o]> fresh).
Proof.
  intros Hk. unfold Store.write. rewrite length_app.
  rewrite decide_True by lia. by rewrite insert_app_r.
Qed.

Lemma iterate_old (s fresh : Store.store) r l :
  s !! r = Some (Store.OList l) ->
  Store.iterate r (s ++ fresh) = Store.Ok l (s ++ fresh).
Proof.
  intros Hr. unfold Store.iterate.
  by rewrite (bind_Ok _ _ _ _ _ (read_old _ _ _ _ Hr)).
Qed.

Lemma iterate_fresh (s fresh : Store.store) k l :
  fresh !! k = Some (Store.OList l) ->
  Store.iterate (length s + k) (s ++ fresh) = Store.Ok l (s ++ fresh).
Proof.
  intros Hk. unfold Store.iterate.
  by rewrite (bind_Ok _ _ _ _ _ (read_fresh _ _ _ _ Hk)).
Qed.

Lemma unpack_old_kwargs (s fresh : Store.store) r d :
  s !! r = Some (Store.OKwargs d) ->
  Store.unpack r (s ++ fresh) = Store.Ok d (s ++ fresh).
Proof.
  intros Hr. unfold Store.unpack.
  by rewrite (bind_Ok _ _ _ _ _ (read_old _ _ _ _ Hr)).
Qed.

Lemma unpack_old_env (s fresh : Store.store) r d :
  s !! r = Some (Store.OEnv d) ->
  Store.unpack r (s ++ fresh)
  = Store.Ok (Store.keywords_of_env d) (s ++ fresh).
Proof.
  intros Hr. unfold Store.unpack.
  by rewrite (bind_Ok _ _ _ _ _ (read_old _ _ _ _ Hr)).
Qed.

Lemma unpack_fresh_env (s fresh : Store.store) k d :
  fresh !! k = Some (Store.OEnv d) ->
  Store.unpack (length s + k) (s ++ fresh)
  = Store.Ok (Store.keywords_of_env d) (s ++ fresh).
Proof.
  intros Hk. unfold Store.unpack.
  by rewrite (bind_Ok _ _ _ _ _ (read_fresh _ _ _ _ Hk)).
Qed.

Lemma env_of_keywords (d : Py.dict string) :
  Store.env_of (Store.keywords_of_env d) = Some d.
Proof.
  induction d as [|[key v] d IH]; [done|].
  simpl. fold (Store.keywords_of_env d). by rewrite IH.
Qed.

Lemma get_list_fresh (s fresh : Store.store) k l :
  fresh !! k = Some (Store.OList l) ->
  Store.get_list (length s + k) (s ++ fresh) = Store.Ok l (s ++ fresh).
Proof.
  intros Hk. unfold Store.get_list.
  by rewrite (bind_Ok _ _ _ _ _ (read_fresh _ _ _ _ Hk)).
Qed.

Lemma get_kwargs_fresh (s fresh : Store.store) k d :
  fresh !! k = Some (Store.OKwargs d) ->
  Store.get_kwargs (length s + k) (s ++ fresh) = Store.Ok d (s ++ fresh).
Proof.
  intros Hk. unfold Store.get_kwargs.
  by rewrite (bind_Ok _ _ _ _ _ (read_fresh _ _ _ _ Hk)).
Qed.

Lemma list_iadd_fresh (s fresh : Store.store) k l items :
  fresh !! k = Some (Store.OList l) ->
  Store.list_iadd (length s + k) items (s ++ fresh)
  = Store.Ok tt (s ++ <[k:=Store.OList (l ++ items)]> fresh).
Proof.
  intros Hk. unfold Store.list_iadd.
  rewrite (bind_Ok _ _ _ _ _ (get_list_fresh _ _ _ _ Hk)).
  apply write_fresh. by eapply lookup_lt_Some.
Qed.

Lemma dict_setdefault_fresh (s fresh : Store.store) k d key v :
  fresh !! k = Some (Store.OKwargs d) ->
  Store.dict_setdefault (length s + k) key v (s ++ fresh)
  = Store.Ok tt (s ++ <[k:=Store.OKwargs (Py.setdefault key v d)]> fresh).
Proof.
  intros Hk. unfold Store.dict_setdefault.
  rewrite (bind_Ok _ _ _ _ _ (get_kwargs_fresh _ _ _ _ Hk)).
  apply write_fresh. by eapply lookup_lt_Some.
Qed.

(** The loop extends the list object [args] by the flag tokens of the
    items, and touches nothing else. *)
Lemma flag_loop_fresh (s fresh : Store.store) k l (items : Py.dict Py.value) :
  fresh !! k = Some (Store.OList l) ->
  Store.for_each items (fun '(arg, val) =>
    if Py.isinstance_bool val then
      if Py.truthy val then Store.list_iadd (length s + k) ["--" +:+ arg]
      else Store.ret tt
    else Store.list_iadd (length s + k) ["--" +:+ arg; Py.str val]) (s ++ fresh)
  = Store.Ok tt (s ++ <[k:=Store.OList (l ++ flags_of items)]> fresh).
Proof.
  revert fresh l. induction items as [|[arg val] items IH]; intros fresh l Hk.
  - cbn [Store.for_each]. unfold Store.ret, flags_of. simpl.
    by rewrite app_nil_r, list_insert_id.
  - cbn [Store.for_each].
    assert (Hlt : k < length fresh) by by eapply lookup_lt_Some.
    destruct (Py.isinstance_bool val) eqn:Hb;
      [destruct (Py.truthy val) eqn:Ht|].
    + rewrite (bind_Ok _ _ _ _ _ (list_iadd_fresh _ _ _ _ _ Hk)).
      rewrite (IH _ (l ++ ["--" +:+ arg])) by by rewrite list_lookup_insert_eq.
      rewrite list_insert_insert_eq. unfold flags_of. simpl.
      by rewrite Hb, Ht, <- app_assoc.
    + unfold Store.bind at 1, Store.ret at 1.
      rewrite (IH _ l) by done. unfold flags_of. simpl. by rewrite Hb, Ht.
    + rewrite (bind_Ok _ _ _ _ _ (list_iadd_fresh _ _ _ _ _ Hk)).
      rewrite (IH _ (l ++ ["--" +:+ arg; Py.str val]))
        by by rewrite list_lookup_insert_eq.
      rewrite list_insert_insert_eq. unfold flags_of. simpl.
      by rewrite Hb, <- app_assoc.
Qed.

(** One statement: find the lemma of the operation at the head of the run
    and replace the operation by its result. *)
Ltac run_op :=
  first
    [ apply alloc_framed
    | eapply dict_setdefault_fresh; reflexivity
    | eapply flag_loop_fresh; reflexivity
    | eapply list_iadd_fresh; reflexivity
    | eapply get_kwargs_fresh; reflexivity
    | eapply iterate_fresh; reflexivity
    | eapply unpack_fresh_env; reflexivity
    | eapply iterate_old; eassumption
    | eapply unpack_old_env; eassumption
    | eapply unpack_old_kwargs; eassumption ].

Ltac run_step := erewrite bind_Ok; [|run_op].

Lemma or_list_framed (s fresh : Store.store) x sav :
  Store.list_arg s x = Some sav ->
  exists r fresh',
    Store.or_list x (s ++ fresh) = Store.Ok r (s ++ (fresh ++ fresh'))
    /\ ((s !! r = Some (Store.OList (Py.or_list sav)) /\ fresh' = [])
        \/ (r = length s + length fresh /\ fresh' = [Store.OList []]
            /\ Py.or_list sav = [])).
Proof.
  unfold Store.list_arg, Store.or_list. destruct x as [r|].
  - destruct (s !! r) as [[l| | |]|] eqn:Hr; try done. intros [= <-].
    rewrite (bind_Ok _ _ _ _ _ (read_old _ _ _ _ Hr)).
    destruct l as [|a l]; simpl.
    + exists (length s + length fresh), [Store.OList []].
      split; [apply alloc_framed|]. by right.
    + exists r, []. rewrite app_nil_r. split; [done|]. by left.
  - intros [= <-]. exists (length s + length fresh), [Store.OList []].
    split; [apply alloc_framed|]. by right.
Qed.

Lemma or_dict_framed (s fresh : Store.store) x sev :
  Store.env_arg s x = Some sev ->
  exists r fresh',
    Store.or_dict x (s ++ fresh) = Store.Ok r (s ++ (fresh ++ fresh'))
    /\ ((s !! r = Some (Store.OEnv (Py.or_dict sev)) /\ fresh' = [])
        \/ (r = length s + length fresh /\ fresh' = [Store.OEnv []]
            /\ Py.or_dict sev = [])).
Proof.
  unfold Store.env_arg, Store.or_dict. destruct x as [r|].
  - destruct (s !! r) as [[| |d|]|] eqn:Hr; try done. intros [= <-].
    rewrite (bind_Ok _ _ _ _ _ (read_old _ _ _ _ Hr)).
    destruct d as [|a d]; simpl.
    + exists (length s + length fresh), [Store.OEnv []].
      split; [apply alloc_framed|]. by right.
    + exists r, []. rewrite app_nil_r. split; [done|]. by left.
  - intros [= <-]. exists (length s + length fresh), [Store.OEnv []].
    split; [apply alloc_framed|]. by right.
Qed.

(** ** Binding within the annotations *)

Lemma annotated_get kw key v :
  Store.annotated kw = true -> Py.get key kw = Some v ->
  Store.annotated_item (key, v) = true.
Proof.
  intros Hall Hget. unfold Store.annotated in Hall.
  rewrite forallb_forall in Hall. apply Hall.
  apply list_elem_of_In. by apply get_Some_elem.
Qed.

Lemma bind_object_annotated kw key x :
  Store.annotated kw = true ->
  key = "script_args" \/ key = "script_envs" ->
  Store.bind_object x (Py.get key kw) = Store.ret x.
Proof.
  intros Hall Hkey. unfold Store.bind_object. destruct x as [r|]; [done|].
  destruct (Py.get key kw) as [v|] eqn:Hget; [|done].
  apply (annotated_get _ _ _ Hall) in Hget.
  destruct Hkey as [-> | ->]; by destruct v.
Qed.

Lemma bind_int_annotated kw key x d :
  Store.annotated kw = true ->
  key = "num_replicas" \/ key = "max_retries" ->
  Store.bind_int x (Py.get key kw) d
  = Store.Typed (default d (Store.keyword_int x key kw)).
Proof.
  intros Hall Hkey. unfold Store.bind_int, Store.keyword_int.
  destruct x as [n|]; [done|].
  destruct (Py.get key kw) as [v|] eqn:Hget; [|done].
  apply (annotated_get _ _ _ Hall) in Hget.
  destruct Hkey as [-> | ->]; by destruct v.
Qed.

Lemma bind_policy_annotated kw x d :
  Store.annotated kw = true ->
  Store.bind_policy x (Py.get "retry_policy" kw) d = Store.Typed (default d x).
Proof.
  intros Hall. unfold Store.bind_policy. destruct x as [p|]; [done|].
  destruct (Py.get "retry_policy" kw) as [v|] eqn:Hget; [|done].
  by apply (annotated_get _ _ _ Hall) in Hget.
Qed.

(** When no key of the mapping names a passed parameter and every key that
    names a parameter carries a value of its annotation, the run returns
    the role the pure function computes from the bound arguments, in a
    store that extends the caller's. *)
Lemma create_torch_dist_role_run macros name container entrypoint
    script_args script_envs num_replicas max_retries retry_policy mapping
    (s : Store.store) sav sev kw :
  Store.list_arg s script_args = Some sav ->
  Store.env_arg s script_envs = Some sev ->
  Store.kwargs_arg s mapping = Some kw ->
  Store.multiple_values
    (Store.passed script_args script_envs num_replicas max_retries retry_policy)
    kw = false ->
  Store.annotated kw = true ->
  exists fresh,
    Store.create_torch_dist_role macros name container entrypoint script_args
      script_envs num_replicas max_retries retry_policy mapping s
    = Store.Ok
        (create_torch_dist_role macros name container entrypoint sav sev
           (Store.keyword_int num_replicas "num_replicas" kw)
           (Store.keyword_int max_retries "max_retries" kw)
           retry_policy (Store.launch_keywords kw))
        (s ++ fresh).
Proof.
  intros Hsa Hse Hkw Hmult Hall.
  assert (Hmap : s !! mapping = Some (Store.OKwargs kw)).
  { unfold Store.kwargs_arg in Hkw.
    destruct (s !! mapping) as [[| | |]|]; naive_solver. }
  enough (exists fresh,
    Store.create_torch_dist_role macros name container entrypoint script_args
      script_envs num_replicas max_retries retry_policy mapping (s ++ [])
    = Store.Ok
        (create_torch_dist_role macros name container entrypoint sav sev
           (Store.keyword_int num_replicas "num_replicas" kw)
           (Store.keyword_int max_retries "max_retries" kw)
           retry_policy (Store.launch_keywords kw))
        (s ++ fresh)) as Hrun by by rewrite app_nil_r in Hrun.
  unfold Store.create_torch_dist_role.
  run_step. rewrite Hmult. run_step.
  rewrite !bind_object_annotated by auto.
  rewrite (bind_int_annotated kw "num_replicas") by auto.
  rewrite (bind_int_annotated kw "max_retries") by auto.
  rewrite bind_policy_annotated by done.
  unfold Store.bind at 1, Store.ret at 1.
  unfold Store.bind at 1, Store.ret at 1.
  destruct (or_list_framed s ([] ++ [Store.OKwargs (Store.launch_keywords kw)])
              _ _ Hsa) as (ra & f1 & Hra & Hcase1).
  rewrite (bind_Ok _ _ _ _ _ Hra).
  destruct (or_dict_framed s
              (([] ++ [Store.OKwargs (Store.launch_keywords kw)]) ++ f1) _ _ Hse)
    as (re & f2 & Hre & Hcase2).
  rewrite (bind_Ok _ _ _ _ _ Hre).
  clear Hra Hre.
  destruct Hcase1 as [[Hra ->]|(-> & -> & Hsav)];
    destruct Hcase2 as [[Hre ->]|(-> & -> & Hsev)].
  all: do 10 run_step.
  all: rewrite env_of_keywords.
  all: eexists; unfold Store.ret; f_equal.
  all: rewrite create_torch_dist_role_unfold;
    unfold launch_args, launch_flags, merged_kwargs, entrypoint_token.
  all: rewrite ?Hsav, ?Hsev, <- app_assoc; reflexivity.
Qed.

(** A key of the mapping that names a passed parameter makes the call raise
    [TypeError] before the body runs, in the caller's store. *)
Lemma multiple_values_raise macros name container entrypoint
    script_args script_envs num_replicas max_retries retry_policy mapping
    (s : Store.store) kw :
  Store.kwargs_arg s mapping = Some kw ->
  Store.multiple_values
    (Store.passed script_args script_envs num_replicas max_retries retry_policy)
    kw = true ->
  Store.create_torch_dist_role macros name container entrypoint script_args
    script_envs num_replicas max_retries retry_policy mapping s
  = Store.Raise Store.TypeError s.
Proof.
  intros Hkw Hmult.
  assert (Hmap : s !! mapping = Some (Store.OKwargs kw)).
  { unfold Store.kwargs_arg in Hkw.
    destruct (s !! mapping) as [[| | |]|]; naive_solver. }
  unfold Store.create_torch_dist_role.
  rewrite <- (app_nil_r s) at 1.
  rewrite (bind_Ok _ _ _ _ _ (unpack_old_kwargs _ _ _ _ Hmap)), Hmult.
  unfold Store.raise. by rewrite app_nil_r.
Qed.



(** C9: a call changes no object of the caller.  However the call ends (it
    returns, it raises, or it hands the [Role] API a value outside its
    contract), the store at the end is the caller's store followed by the
    objects the call allocated, so every reference of the caller reads what
    it read before; in particular the [script_args] list, the [script_envs]
    mapping and the mapping the keywords came from are as they were.  The
    call returns when no key of the mapping names a passed parameter and
    the keys that name a parameter carry a value of its annotation.  The
    list and the dictionary that stand in for an absent [script_args] or
    [script_envs] are new objects. *)
Theorem C9_caller_objects_unchanged macros name container entrypoint
    script_args script_envs num_replicas max_retries retry_policy mapping
    (s : Store.store) sav sev kw :
  Store.list_arg s script_args = Some sav ->
  Store.env_arg s script_envs = Some sev ->
  Store.kwargs_arg s mapping = Some kw ->
  exists fresh,
    Store.final_store
      (Store.create_torch_dist_role macros name container entrypoint script_args
         script_envs num_replicas max_retries retry_policy mapping s)
    = Some (s ++ fresh)
    /\ (Store.multiple_values
          (Store.passed script_args script_envs num_replicas max_retries
             retry_policy) kw = false ->
        Store.annotated kw = true ->
        exists role,
          Store.create_torch_dist_role macros name container entrypoint
            script_args script_envs num_replicas max_retries retry_policy
            mapping s
          = Store.Ok role (s ++ fresh))
    /\ (forall r, r < length s -> (s ++ fresh) !! r = s !! r)
    /\ Store.list_arg (s ++ fresh) script_args = Some sav
    /\ Store.env_arg (s ++ fresh) script_envs = Some sev
    /\ Store.kwargs_arg (s ++ fresh) mapping = Some kw
    /\ Store.or_list None s = Store.Ok (length s) (s ++ [Store.OList []])
    /\ Store.or_dict None s = Store.Ok (length s) (s ++ [Store.OEnv []]).
Proof.
  intros Hsa Hse Hkw.
  assert (Hframed : framed s (fun _ s' => extends s s')
            (Store.create_torch_dist_role macros name container entrypoint
               script_args script_envs num_replicas max_retries retry_policy
               mapping s)).
  { apply create_torch_dist_role_framed.
    - intros r ->. unfold Store.list_arg in Hsa.
      destruct (s !! r) eqn:Hr; [by eapply lookup_lt_Some|done].
    - intros r ->. unfold Store.env_arg in Hse.
      destruct (s !! r) eqn:Hr; [by eapply lookup_lt_Some|done].
    - unfold Store.kwargs_arg in Hkw.
      destruct (s !! mapping) eqn:Hr; [by eapply lookup_lt_Some|done]. }
  assert (Hfinal : exists fresh,
            Store.final_store
              (Store.create_torch_dist_role macros name container entrypoint
                 script_args script_envs num_replicas max_retries retry_policy
                 mapping s)
            = Some (s ++ fresh)).
  { destruct (Store.create_torch_dist_role macros name container entrypoint
                script_args script_envs num_replicas max_retries retry_policy
                mapping s) as [role s'|e s'|s'|]; simpl in *; [..|done];
      destruct Hframed as [fresh ->]; by exists fresh. }
  destruct Hfinal as [fresh Hfinal]. exists fresh.
  split_and!; try done.
  - intros Hmult Hall.
    destruct (create_torch_dist_role_run macros name container entrypoint
                script_args script_envs num_replicas max_retries
                retry_policy mapping s sav sev kw Hsa Hse Hkw Hmult Hall)
      as [fresh' Hrun].
    rewrite Hrun in Hfinal. simpl in Hfinal.
    injection Hfinal as Heq. apply app_inv_head in Heq. subst fresh'. eauto.
  - intros r Hr. by apply lookup_app_l.
  - unfold Store.list_arg in *. destruct script_args as [r|]; [|done].
    destruct (s !! r) as [o|] eqn:Hr; [|done].
    by rewrite (lookup_app_l_Some _ _ _ _ Hr).
  - unfold Store.env_arg in *. destruct script_envs as [r|]; [|done].
    destruct (s !! r) as [o|] eqn:Hr; [|done].
    by rewrite (lookup_app_l_Some _ _ _ _ Hr).
  - unfold Store.kwargs_arg in *.
    destruct (s !! mapping) as [o|] eqn:Hr; [|done].
    by rewrite (lookup_app_l_Some _ _ _ _ Hr).
Qed.

Lemma C9_caller_objects_unchanged_witness :
  let s := [Store.OList ["--lr"; "0.1"]; Store.OEnv [("OMP_NUM_THREADS", "1")];
            Store.OKwargs [("nnodes", Py.VStr "2:4")]] in
  (Store.list_arg s (Some 0) = Some (Some ["--lr"; "0.1"])
   /\ Store.env_arg s (Some 1) = Some (Some [("OMP_NUM_THREADS", "1")])
   /\ Store.kwargs_arg s 2 = Some [("nnodes", Py.VStr "2:4")])
  /\ exists fresh,
       Store.final_store
         (Store.create_torch_dist_role sample_macros "trainer" sample_container
            "train.py" (Some 0) (Some 1) None None None 2 s)
       = Some (s ++ fresh)
       /\ (exists role,
             Store.create_torch_dist_role sample_macros "trainer"
               sample_container "train.py" (Some 0) (Some 1) None None None 2 s
             = Store.Ok role (s ++ fresh))
       /\ (forall r, r < length s -> (s ++ fresh) !! r = s !! r)
       /\ Store.list_arg (s ++ fresh) (Some 0) = Some (Some ["--lr"; "0.1"])
       /\ Store.env_arg (s ++ fresh) (Some 1)
          = Some (Some [("OMP_NUM_THREADS", "1")])
       /\ Store.kwargs_arg (s ++ fresh) 2 = Some [("nnodes", Py.VStr "2:4")]
       /\ Store.or_list None s = Store.Ok (length s) (s ++ [Store.OList []])
       /\ Store.or_dict None s = Store.Ok (length s) (s ++ [Store.OEnv []]).
Proof.
  intros s. split; [split_and!; reflexivity|].
  destruct (C9_caller_objects_unchanged sample_macros "trainer" sample_container
              "train.py" (Some 0) (Some 1) None None None 2 s
              (Some ["--lr"; "0.1"]) (Some [("OMP_NUM_THREADS", "1")])
              [("nnodes", Py.VStr "2:4")] eq_refl eq_refl eq_refl)
    as (fresh & Hfinal & Hok & Hframe & Hsa & Hse & Hkw & Hl & Hd).
  exists fresh.
  split_and!; [exact Hfinal|exact (Hok eq_refl eq_refl)|exact Hframe|exact Hsa
              |exact Hse|exact Hkw|exact Hl|exact Hd].
Defined.

(** * Further properties of the builder *)

(** ** The merged keyword dictionary *)

Lemma merged_kwargs_contains_defaults macros name kw :
  Py.contains "rdzv_backend" (merged_kwargs macros name kw) = true
  /\ Py.contains "rdzv_id" (merged_kwargs macros name kw) = true
  /\ Py.contains "role" (merged_kwargs macros name kw) = true.
Proof.
  unfold merged_kwargs, Py.setdefault.
  destruct (Py.contains "rdzv_backend" kw) eqn:H1;
    destruct (Py.contains "rdzv_id" kw) eqn:H2;
    destruct (Py.contains "role" kw) eqn:H3;
    repeat (rewrite ?contains_app, ?H1, ?H2, ?H3; simpl);
    by split_and!.
Qed.

Lemma merged_kwargs_idem macros name kw :
  merged_kwargs macros name (merged_kwargs macros name kw)
  = merged_kwargs macros name kw.
Proof.
  destruct (merged_kwargs_contains_defaults macros name kw) as (H1 & H2 & H3).
  unfold merged_kwargs at 1.
  by rewrite (setdefault_present "rdzv_backend"), (setdefault_present "rdzv_id"),
    (setdefault_present "role").
Qed.

Lemma merged_kwargs_length macros name kw :
  length kw <= length (merged_kwargs macros name kw) <= length kw + 3.
Proof.
  rewrite merged_kwargs_app, length_app. unfold missing_defaults.
  pose proof (length_filter
    (fun item : string * Py.value => Py.contains (fst item) kw = false)
    (default_kwargs macros name)) as Hlen.
  simpl in Hlen. lia.
Qed.

(** X1: passing the keywords together with the defaults the function would add
    builds the same role as passing the keywords alone: the defaults are
    merged once, not appended a second time. *)
Theorem explicit_defaults_same_role macros name container entrypoint script_args
    script_envs num_replicas max_retries retry_policy launch_kwargs :
  create_torch_dist_role macros name container entrypoint script_args script_envs
    num_replicas max_retries retry_policy
    (launch_kwargs ++ missing_defaults macros name launch_kwargs)
  = create_torch_dist_role macros name container entrypoint script_args script_envs
      num_replicas max_retries retry_policy launch_kwargs.
Proof.
  rewrite !create_torch_dist_role_unfold. unfold launch_args, launch_flags.
  by rewrite <- merged_kwargs_app, merged_kwargs_idem.
Qed.

(** X2: a keyword dictionary without repeated keys stays so after the three
    [setdefault] calls, so every flag name [--key] is produced by one item
    only. *)
Theorem merged_kwargs_unique_keys macros name launch_kwargs :
  NoDup (Py.keys launch_kwargs) ->
  NoDup (Py.keys (merged_kwargs macros name launch_kwargs))
  /\ forall key val val',
       (key, val) ∈ merged_kwargs macros name launch_kwargs ->
       (key, val') ∈ merged_kwargs macros name launch_kwargs ->
       val = val'.
Proof.
  intros Hwf.
  assert (Hm : Py.wf (merged_kwargs macros name launch_kwargs))
    by by apply merged_kwargs_wf.
  split; [done|]. intros key val val' Hin Hin'.
  apply (wf_elem_get _ _ _ Hm) in Hin. apply (wf_elem_get _ _ _ Hm) in Hin'.
  congruence.
Qed.

Lemma merged_kwargs_unique_keys_witness :
  NoDup (Py.keys [("nnodes", Py.VInt 2); ("role", Py.VStr "worker")])
  /\ NoDup (Py.keys (merged_kwargs sample_macros "trainer"
                       [("nnodes", Py.VInt 2); ("role", Py.VStr "worker")])).
Proof.
  assert (Hwf : NoDup (Py.keys [("nnodes", Py.VInt 2); ("role", Py.VStr "worker")])).
  { apply (bool_decide_unpack _). reflexivity. }
  split; [exact Hwf|].
  exact (proj1 (merged_kwargs_unique_keys sample_macros "trainer"
                  [("nnodes", Py.VInt 2); ("role", Py.VStr "worker")] Hwf)).
Defined.

(** X3: whatever the caller passes, the merged dictionary has the three keys
    [rdzv_backend], [rdzv_id] and [role], begins with the caller's items and
    has at most three items more. *)
Theorem merged_kwargs_has_defaults macros name launch_kwargs :
  let merged := merged_kwargs macros name launch_kwargs in
  Forall (fun key => is_Some (Py.get key merged)) ["rdzv_backend"; "rdzv_id"; "role"]
  /\ take (length launch_kwargs) merged = launch_kwargs
  /\ length launch_kwargs <= length merged <= length launch_kwargs + 3
  /\ Forall (fun item => Py.contains (fst item) launch_kwargs = false
                         /\ item ∈ default_kwargs macros name)
       (drop (length launch_kwargs) merged).
Proof.
  intros merged. subst merged.
  destruct (merged_kwargs_contains_defaults macros name launch_kwargs)
    as (H1 & H2 & H3).
  assert (Hget : forall key,
            Py.contains key (merged_kwargs macros name launch_kwargs) = true ->
            is_Some (Py.get key (merged_kwargs macros name launch_kwargs))).
  { intros key Hc.
    destruct (Py.get key (merged_kwargs macros name launch_kwargs)) eqn:Hg; [eauto|].
    apply get_None_contains in Hg. congruence. }
  split_and!.
  - repeat constructor; by apply Hget.
  - by rewrite merged_kwargs_app, take_app_length.
  - apply merged_kwargs_length.
  - apply merged_kwargs_length.
  - rewrite merged_kwargs_app, drop_app_length. unfold missing_defaults.
    apply Forall_forall. intros item Hin.
    by apply list_elem_of_filter in Hin.
Qed.

(** ** The entrypoint token *)

Lemma prefix_append (p s : string) : String.prefix p (p +:+ s) = true.
Proof.
  induction p as [|c p IH]; simpl; [by destruct s|].
  by destruct (ascii_dec c c).
Qed.

(** X4: the entrypoint token is always absolute or starts with the image root,
    and normalising it again leaves it as it is. *)
Theorem entrypoint_token_idempotent macros entrypoint :
  let token := entrypoint_token macros entrypoint in
  (os_path.isabs token || Py.startswith token (img_root macros))%bool = true
  /\ entrypoint_token macros token = token.
Proof.
  intros token.
  assert (Hok : (os_path.isabs token
                 || Py.startswith token (img_root macros))%bool = true).
  { subst token. rewrite entrypoint_token_eq.
    destruct (os_path.isabs entrypoint || Py.startswith entrypoint (img_root macros))%bool
      eqn:Hc; [done|].
    apply orb_true_iff. right. apply prefix_append. }
  split; [done|]. by rewrite (entrypoint_token_eq macros token), Hok.
Qed.

Lemma append_empty (a b : string) : a +:+ b = "" -> a = "" /\ b = "".
Proof. destruct a; simpl; [done|discriminate]. Qed.

(** X5: with an empty image root nothing is ever rewritten: every string starts
    with the empty string, so the entrypoint is taken as it is, relative or
    not. *)
Theorem entrypoint_token_empty_root app entrypoint :
  entrypoint_token (mkMacros app "") entrypoint = entrypoint.
Proof.
  unfold entrypoint_token, Py.startswith. simpl.
  replace (String.prefix "" entrypoint) with true by by destruct entrypoint.
  by rewrite andb_false_r.
Qed.

(** X6: the entrypoint token is the empty string only when both the entrypoint
    and the image root are empty; an empty entrypoint with a non-empty image
    root becomes the image root followed by one separator. *)
Theorem entrypoint_token_empty macros entrypoint :
  String.eqb (entrypoint_token macros entrypoint) ""
  = (String.eqb entrypoint "" && String.eqb (img_root macros) "")%bool
  /\ entrypoint_token macros ""
     = if String.eqb (img_root macros) "" then ""
       else img_root macros
              +:+ (if Py.endswith_sep (img_root macros) then "" else "/").
Proof.
  rewrite !entrypoint_token_eq. unfold os_path.isabs, Py.startswith.
  destruct (img_root macros) as [|c root] eqn:Hroot.
  - replace (String.prefix "" entrypoint) with true by by destruct entrypoint.
    rewrite orb_true_r, andb_true_r. by split.
  - split.
    + destruct entrypoint as [|e ep]; [simpl|].
      * done.
      * rewrite andb_false_r.
        by destruct (String.prefix os_path.sep (String e ep)
                     || String.prefix (String c root) (String e ep))%bool.
    + destruct (Py.endswith_sep (String c root)); reflexivity.
Qed.

(** ** The number of tokens *)

(** X7: every keyword with a non-boolean value gives two tokens, every keyword
    set to [True] gives one and every keyword set to [False] gives none; the
    argument list has these, the two fixed tokens, the entrypoint and the
    script arguments. *)
Theorem argument_count macros name container entrypoint script_args script_envs
    num_replicas max_retries retry_policy launch_kwargs :
  let merged := merged_kwargs macros name launch_kwargs in
  let valued := filter (fun item => Py.isinstance_bool (snd item) = false) merged in
  let switches := filter (fun item => (Py.isinstance_bool (snd item) && Py.truthy (snd item))%bool = true) merged in
  length (launch_flags macros name launch_kwargs)
  = 2 * length valued + length switches
  /\ length (role_args (create_torch_dist_role macros name container entrypoint
                          script_args script_envs num_replicas max_retries
                          retry_policy launch_kwargs))
     = 3 + 2 * length valued + length switches + length (Py.or_list script_args)
  /\ length (launch_flags macros name launch_kwargs) <= 2 * length launch_kwargs + 6.
Proof.
  intros merged valued switches.
  assert (Hcount : forall d : Py.dict Py.value,
    length (flags_of d)
    = 2 * length (filter (fun item => Py.isinstance_bool (snd item) = false) d)
      + length (filter (fun item => (Py.isinstance_bool (snd item) && Py.truthy (snd item))%bool = true) d)).
  { induction d as [|[k v] d IH]; [done|].
    unfold flags_of in *. cbn [flat_map]. rewrite length_app, IH, !filter_cons.
    destruct v as [|[]| |]; simpl; repeat case_decide; simpl; try done; lia. }
  assert (Hflags : length (launch_flags macros name launch_kwargs)
                   = 2 * length valued + length switches) by apply Hcount.
  split_and!.
  - done.
  - rewrite create_torch_dist_role_unfold. unfold role_args, launch_args.
    cbn [role_run from_option arguments]. simpl.
    rewrite length_app, Hflags. simpl. lia.
  - rewrite Hflags. subst valued switches merged.
    destruct (merged_kwargs_length macros name launch_kwargs) as [_ Hle].
    pose proof (length_filter
      (fun item : string * Py.value => Py.isinstance_bool (snd item) = false)
      (merged_kwargs macros name launch_kwargs)) as H1.
    assert (H2 : length (filter (fun item : string * Py.value =>
                   Py.isinstance_bool (snd item) = false)
                   (merged_kwargs macros name launch_kwargs))
                 + length (filter (fun item : string * Py.value =>
                     (Py.isinstance_bool (snd item) && Py.truthy (snd item))%bool = true)
                     (merged_kwargs macros name launch_kwargs))
                 <= length (merged_kwargs macros name launch_kwargs)).
    { generalize (merged_kwargs macros name launch_kwargs).
      induction l as [|[k v] l IH]; [done|].
      rewrite !filter_cons.
      destruct v as [|[]| |]; simpl; repeat case_decide; simpl; try done; lia. }
    lia.
Qed.

(** ** Defaults, key by key *)

(** X8: each default acts on its own: a default whose key the caller did not
    pass gives its two tokens [--key value], after all the flags of the
    caller's keywords, whether or not the other two keys were passed. *)
Theorem missing_default_flag macros name launch_kwargs key val :
  (key, val) ∈ default_kwargs macros name ->
  Py.contains key launch_kwargs = false ->
  exists before after,
    launch_flags macros name launch_kwargs
    = flags_of launch_kwargs ++ before ++ ["--" +:+ key; Py.str val] ++ after.
Proof.
  intros Hdef Hc.
  assert (Hin : (key, val) ∈ missing_defaults macros name launch_kwargs).
  { unfold missing_defaults. by apply list_elem_of_filter. }
  apply list_elem_of_split in Hin as (m1 & m2 & Hm).
  exists (flags_of m1), (flags_of m2).
  unfold launch_flags. rewrite merged_kwargs_app, Hm, !flags_of_app. do 2 f_equal.
  unfold flags_of at 1. cbn [flat_map]. fold (flags_of m2).
  unfold default_kwargs in Hdef.
  repeat (apply elem_of_cons in Hdef as [[= -> ->]|Hdef]; [done|]).
  by apply elem_of_nil in Hdef.
Qed.

Lemma missing_default_flag_witness :
  (("role", Py.VStr "trainer") ∈ default_kwargs sample_macros "trainer"
   /\ Py.contains "role" [("rdzv_id", Py.VInt 7)] = false)
  /\ exists before after,
       launch_flags sample_macros "trainer" [("rdzv_id", Py.VInt 7)]
       = flags_of [("rdzv_id", Py.VInt 7)] ++ before
         ++ ["--" +:+ "role"; Py.str (Py.VStr "trainer")] ++ after.
Proof.
  assert (Hdef : ("role", Py.VStr "trainer") ∈ default_kwargs sample_macros "trainer").
  { unfold default_kwargs. do 2 right. left. }
  split; [by split|].
  exact (missing_default_flag sample_macros "trainer" [("rdzv_id", Py.VInt 7)]
           "role" (Py.VStr "trainer") Hdef eq_refl).
Defined.

(** ** The order of the keywords *)

Lemma contains_Permutation {V} key (d d' : Py.dict V) :
  d ≡ₚ d' -> Py.contains key d = Py.contains key d'.
Proof.
  intros Hp.
  destruct (Py.contains key d) eqn:H1; destruct (Py.contains key d') eqn:H2;
    try done.
  - apply contains_true_elem in H1. apply contains_false_elem in H2.
    exfalso. apply H2. unfold Py.keys in *. by rewrite <- Hp.
  - apply contains_false_elem in H1. apply contains_true_elem in H2.
    exfalso. apply H1. unfold Py.keys in *. by rewrite Hp.
Qed.

(** X9: passing the same keywords in another order changes the order of the
    flag tokens and nothing else: the same defaults are added, and the flag
    tokens and the argument list are rearrangements of each other. *)
Theorem keyword_order_permutes_flags macros name container entrypoint script_args
    script_envs num_replicas max_retries retry_policy
    (launch_kwargs launch_kwargs' : Py.dict Py.value) :
  launch_kwargs ≡ₚ launch_kwargs' ->
  missing_defaults macros name launch_kwargs
  = missing_defaults macros name launch_kwargs'
  /\ launch_flags macros name launch_kwargs
     ≡ₚ launch_flags macros name launch_kwargs'
  /\ role_args (create_torch_dist_role macros name container entrypoint
                  script_args script_envs num_replicas max_retries retry_policy
                  launch_kwargs)
     ≡ₚ role_args (create_torch_dist_role macros name container entrypoint
                     script_args script_envs num_replicas max_retries
                     retry_policy launch_kwargs').
Proof.
  intros Hp.
  assert (Hmiss : missing_defaults macros name launch_kwargs
                  = missing_defaults macros name launch_kwargs').
  { unfold missing_defaults. apply list_filter_iff. intros item.
    by rewrite (contains_Permutation _ _ _ Hp). }
  assert (Hflags : launch_flags macros name launch_kwargs
                   ≡ₚ launch_flags macros name launch_kwargs').
  { unfold launch_flags, flags_of. rewrite !merged_kwargs_app, Hmiss.
    apply Permutation_flat_map. by rewrite Hp. }
  split_and!; [done..|].
  rewrite !create_torch_dist_role_unfold. unfold role_args, launch_args.
  cbn [role_run from_option arguments]. by rewrite Hflags.
Qed.

Lemma keyword_order_permutes_flags_witness :
  [("nnodes", Py.VInt 2); ("standalone", Py.VBool true)]
    ≡ₚ [("standalone", Py.VBool true); ("nnodes", Py.VInt 2)]
  /\ launch_flags sample_macros "trainer"
       [("nnodes", Py.VInt 2); ("standalone", Py.VBool true)]
     ≡ₚ launch_flags sample_macros "trainer"
          [("standalone", Py.VBool true); ("nnodes", Py.VInt 2)].
Proof.
  assert (Hp : [("nnodes", Py.VInt 2); ("standalone", Py.VBool true)]
               ≡ₚ [("standalone", Py.VBool true); ("nnodes", Py.VInt 2)])
    by apply perm_swap.
  split; [exact Hp|].
  exact (proj1 (proj2 (keyword_order_permutes_flags sample_macros "trainer"
                         sample_container "train.py" None None None None None
                         _ _ Hp))).
Defined.

